(** * image_analyzer.py: a shallow embedding and its verified properties

    The script reads a JSON file of profile records, and for each record
    downloads an image, hashes it, posts the hash to a backend, and finally
    writes the list of per-record results to a JSON file.

    The embedding follows [src/image_analyzer.py] function by function.
    Python exceptions and [sys.exit] are explicit results, the wall clock,
    the file system and the sequence of I/O calls are an explicit state,
    and everything that lies outside the script (the network, the image
    decoder, the hash library, the latency of the worker threads) is a
    field of a [World] or [Sched] record that the theorems quantify over.

    The console is the interpreter's default one: open, and encoding its
    output as UTF-8. A [print] then fails exactly when its text holds a
    lone surrogate, which a record of the input file or an error text can
    bring in. The prints of [process_profile] format such values and are
    part of the embedding. The other prints write literals, counts,
    configuration values and the texts of the load and save errors; they
    are taken to succeed, and of what they evaluate the one call that can
    raise is kept ([len(data)] in [load_profiles]). The text a print
    leaves on the console is not part of the state. *)

From stdpp Require Import base strings list gmap pretty sorting.
From Stdlib Require Import ZArith NArith Lia Ascii.

Open Scope string_scope.
Open Scope list_scope.
Open Scope Z_scope.

Set Warnings "-register-all".

(** ** Python values, as [json.load] produces them *)

(** Numbers are integers here. The script never computes with a number: a
    fractional one would behave like [PInt] everywhere below (it has no
    length, no [get] method and cannot be iterated). *)

Inductive pyval : Type :=
| PNone
| PBool (b : bool)
| PInt (z : Z)
| PStr (s : string)
| PList (l : list pyval)
| PDict (kvs : list (string * pyval)).

Definition py_type_name (v : pyval) : string :=
  match v with
  | PNone => "NoneType"
  | PBool _ => "bool"
  | PInt _ => "int"
  | PStr _ => "str"
  | PList _ => "list"
  | PDict _ => "dict"
  end.

(** Truth value of an object, as [if not profiles] tests it. *)
Definition py_truthy (v : pyval) : bool :=
  match v with
  | PNone => false
  | PBool b => b
  | PInt z => negb (z =? 0)
  | PStr s => negb (String.eqb s "")
  | PList l => match l with [] => false | _ => true end
  | PDict kvs => match kvs with [] => false | _ => true end
  end.

(** [d.get(key)] on a dictionary: the value, or [None] when absent. *)
Fixpoint dict_get (kvs : list (string * pyval)) (key : string) : pyval :=
  match kvs with
  | [] => PNone
  | (k, v) :: rest => if String.eqb k key then v else dict_get rest key
  end.

Fixpoint chars_of (s : string) : list pyval :=
  match s with
  | EmptyString => []
  | String c rest => PStr (String c EmptyString) :: chars_of rest
  end.

(** ** Text and the console *)

(** A Python string is held as its UTF-8 bytes. A lone surrogate (U+D800 to
    U+DFFF), which JSON input can hold, is held as the three bytes that
    Python's [surrogatepass] handler writes for it: ED, then a byte from A0
    to BF, then one more. No other code point starts that way. *)
Definition surrogate_start (c d : ascii) : bool :=
  (nat_of_ascii c =? 237)%nat
  && (160 <=? nat_of_ascii d)%nat && (nat_of_ascii d <=? 191)%nat.

Fixpoint has_surrogate (s : string) : bool :=
  match s with
  | EmptyString => false
  | String c rest =>
      match rest with
      | EmptyString => false
      | String d _ => surrogate_start c d || has_surrogate rest
      end
  end.

(** The pieces of an f-string: literal text, a value formatted by [str], a
    string, and a string-or-[None]. *)
Inductive fragment : Type :=
| Lit (s : string)
| Val (v : pyval)
| Txt (s : string)
| Opt (o : option string).

(** Whether [str(v)] can be encoded as UTF-8. Only a string can fail: on
    the other values [str] is [repr], which writes a surrogate inside a
    list or a dictionary as an escape. *)
Definition printable_val (v : pyval) : bool :=
  match v with
  | PStr s => negb (has_surrogate s)
  | _ => true
  end.

Definition printable_fragment (f : fragment) : bool :=
  match f with
  | Lit s => negb (has_surrogate s)
  | Val v => printable_val v
  | Txt s => negb (has_surrogate s)
  | Opt (Some s) => negb (has_surrogate s)
  | Opt None => true
  end.

(** The hash of [imagehash]: [str] of it is a string of hex digits. *)
Inductive hexdigit : Type :=
| Hex0 | Hex1 | Hex2 | Hex3 | Hex4 | Hex5 | Hex6 | Hex7
| Hex8 | Hex9 | HexA | HexB | HexC | HexD | HexE | HexF.

Definition hex_char (d : hexdigit) : ascii :=
  match d with
  | Hex0 => "0" | Hex1 => "1" | Hex2 => "2" | Hex3 => "3"
  | Hex4 => "4" | Hex5 => "5" | Hex6 => "6" | Hex7 => "7"
  | Hex8 => "8" | Hex9 => "9" | HexA => "a" | HexB => "b"
  | HexC => "c" | HexD => "d" | HexE => "e" | HexF => "f"
  end%char.

Fixpoint hex_string (l : list hexdigit) : string :=
  match l with
  | [] => EmptyString
  | d :: rest => String (hex_char d) (hex_string rest)
  end.

(** ** Exceptions *)

(** Subclasses of [requests.exceptions.RequestException]. *)
Inductive req_exc : Type :=
| HTTPError
| ConnectionError
| Timeout
| TooManyRedirects
| MissingSchema
| InvalidURL
| RequestsJSONDecodeError.

(** Subclasses of [Exception] that the script can meet. *)
Inductive exn_class : Type :=
| AttributeError
| TypeError
| ValueError
| FileNotFoundError
| PermissionError
| OSError
| JSONDecodeError
| UnicodeDecodeError
| UnicodeEncodeError
| UnidentifiedImageError
| RequestException (r : req_exc)
| OtherException (name : string).

Record exn : Type := mk_exn { exn_cls : exn_class; exn_msg : string }.

(** [str(e)] *)
Definition str_exn (e : exn) : string := exn_msg e.

Definition is_FileNotFoundError (e : exn) : bool :=
  match exn_cls e with FileNotFoundError => true | _ => false end.

(** [requests.exceptions.JSONDecodeError] also derives from
    [json.JSONDecodeError]. *)
Definition is_JSONDecodeError (e : exn) : bool :=
  match exn_cls e with
  | JSONDecodeError => true
  | RequestException RequestsJSONDecodeError => true
  | _ => false
  end.

Definition is_RequestException (e : exn) : bool :=
  match exn_cls e with RequestException _ => true | _ => false end.

(** Every class above derives from [Exception]; [SystemExit] does not and
    is a separate outcome below. *)
Definition is_Exception (e : exn) : bool := true.

(** Outcome of running a piece of Python code. *)
Inductive result (A : Type) : Type :=
| Ret (a : A)
| Raise (e : exn)
| SysExit (code : Z).
Arguments Ret {A} a.
Arguments Raise {A} e.
Arguments SysExit {A} code.

(** ** The world outside the script *)

Record response : Type := mk_response {
  status_code : Z;
  reason : string;
  resp_url : string;
  body : string;                      (* [.content] and [.text] *)
  json_result : exn + pyval           (* what [.json()] does: raise or return *)
}.

Inductive image : Type := Image (data : string).

(** What is found at a path: text that [json.load] parses, text that it
    rejects with a [JSONDecodeError], or a file on which [open], the read
    or the parse raises something else (no permission, bytes that are not
    UTF-8, a number too long to convert). *)
Inductive file : Type :=
| Json (v : pyval)
| NotJson (raw : string) (msg : string)
| Broken (e : exn).

Inductive event : Type :=
| EvOpenRead (path : string)
| EvOpenWrite (path : string)
| EvGet (url : pyval)
| EvPost (endpoint : string) (payload : pyval) (headers : list (string * string))
| EvPool (max_workers : Z)
| EvSubmit (profile : pyval).

Record state : Type := mk_state {
  clock : N;
  fs : gmap string file;
  trace : list event
}.

Record World : Type := mk_World {
  (** [requests.get(url, timeout=10)] issued at a given instant: the time it
      takes, and the exception it raises or the response. *)
  requests_get : N -> pyval -> N * (exn + response);
  (** [requests.post(endpoint, json=payload, headers=headers, timeout=10)] *)
  requests_post : N -> string -> pyval -> list (string * string) ->
                  N * (exn + response);
  (** [Image.open(BytesIO(content))] *)
  Image_open : string -> exn + image;
  (** [imagehash.phash(image)] *)
  imagehash_phash : image -> exn + list hexdigit;
  (** [datetime.isoformat] of an instant, in the local time zone *)
  isoformat : N -> string;
  (** [open(path, 'w')]: the error it raises, if any *)
  open_write : string -> option exn;
  (** the text of the [UnicodeEncodeError] of a print, which names the
      character that cannot be encoded and its position *)
  codec_error_text : list fragment -> string
}.

Record Config : Type := mk_Config {
  API_ENDPOINT : string;
  WORKER_SECRET : string;
  INPUT_FILE : string;
  OUTPUT_FILE : string;
  MAX_WORKERS : Z
}.

(** ** A monad for state, exceptions and exit *)

Definition M (S A : Type) : Type := S -> result A * S.

Definition ret {S A} (a : A) : M S A := fun s => (Ret a, s).

Definition raise {S A} (e : exn) : M S A := fun s => (Raise e, s).

Definition sys_exit {S A} (code : Z) : M S A := fun s => (SysExit code, s).

Definition bind {S A B} (m : M S A) (k : A -> M S B) : M S B :=
  fun s =>
    match m s with
    | (Ret a, s') => k a s'
    | (Raise e, s') => (Raise e, s')
    | (SysExit c, s') => (SysExit c, s')
    end.

Notation "'let*' x ':=' m 'in' k" := (bind m (fun x => k))
  (at level 10, x name, m at level 100, k at level 200).
Notation "'exec' m 'in' k" := (bind m (fun _ => k))
  (at level 10, m at level 100, k at level 200).

(** [try: m  except C1 as e: h1 e  except C2 as e: h2 e ...]: the first
    clause whose class matches handles the exception; what a handler
    raises is not offered to its sibling clauses. *)
Fixpoint handle {S A} (clauses : list ((exn -> bool) * (exn -> M S A)))
    (e : exn) : M S A :=
  match clauses with
  | [] => raise e
  | (sel, h) :: rest => if sel e then h e else handle rest e
  end.

Definition try_except {S A} (m : M S A)
    (clauses : list ((exn -> bool) * (exn -> M S A))) : M S A :=
  fun s =>
    match m s with
    | (Raise e, s') => handle clauses e s'
    | r => r
    end.

Definition get_state {S} : M S S := fun s => (Ret s, s).

Definition modify {S} (f : S -> S) : M S unit := fun s => (Ret tt, f s).

(** Run [m] with a fresh local variable next to the state. *)
Definition with_local {S L A} (init : L) (m : M (L * S) A) : M S A :=
  fun s => let '(r, (_, s')) := m (init, s) in (r, s').

Definition lift {S L A} (m : M S A) : M (L * S) A :=
  fun ls => let '(r, s') := m (snd ls) in (r, (fst ls, s')).

Definition get_local {S L} : M (L * S) L := fun ls => (Ret (fst ls), ls).

Definition set_local {S L} (f : L -> L) : M (L * S) unit :=
  fun ls => (Ret tt, (f (fst ls), snd ls)).

Definition emit (ev : event) : M state unit :=
  modify (fun s => mk_state (clock s) (fs s) (trace s ++ [ev])).

Definition elapse (d : N) : M state unit :=
  modify (fun s => mk_state (clock s + d)%N (fs s) (trace s)).

Definition now : M state N := fun s => (Ret (clock s), s).

(** ** Built-ins that can raise *)

Definition py_len {S} (v : pyval) : M S Z :=
  match v with
  | PStr s => ret (Z.of_nat (String.length s))
  | PList l => ret (Z.of_nat (length l))
  | PDict kvs => ret (Z.of_nat (length kvs))
  | _ => raise (mk_exn TypeError
                  ("object of type '" +:+ py_type_name v +:+ "' has no len()"))
  end.

Definition py_iter {S} (v : pyval) : M S (list pyval) :=
  match v with
  | PList l => ret l
  | PDict kvs => ret (map (fun kv => PStr (fst kv)) kvs)
  | PStr s => ret (chars_of s)
  | _ => raise (mk_exn TypeError
                  ("'" +:+ py_type_name v +:+ "' object is not iterable"))
  end.

(** [obj.get(key)]: only dictionaries have the method. *)
Definition py_get {S} (obj : pyval) (key : string) : M S pyval :=
  match obj with
  | PDict kvs => ret (dict_get kvs key)
  | _ => raise (mk_exn AttributeError
                  ("'" +:+ py_type_name obj +:+ "' object has no attribute 'get'"))
  end.

(** [print(f"...")]: the text is written when every piece of it can be
    encoded, and the print raises [UnicodeEncodeError] otherwise. *)
Definition print {S} (w : World) (parts : list fragment) : M S unit :=
  if forallb printable_fragment parts then ret tt
  else raise (mk_exn UnicodeEncodeError (codec_error_text w parts)).

(** ** Records built by the script *)

(** The dictionary returned by [send_to_api]; a key that is not set reads
    as [None] through [.get]. *)
Record ApiCallResult : Type := mk_ApiCallResult {
  ar_success : bool;
  ar_status_code : option Z;
  ar_response : option pyval;
  ar_error : option string
}.

(** The [result] dictionary of [process_profile]. *)
Record Outcome : Type := mk_Outcome {
  o_id : pyval;
  p_hash : option string;
  status : string;
  error : option string;
  api_response : option ApiCallResult;
  timestamp : string
}.

Definition set_p_hash (v : option string) (o : Outcome) : Outcome :=
  mk_Outcome (o_id o) v (status o) (error o) (api_response o) (timestamp o).
Definition set_status (v : string) (o : Outcome) : Outcome :=
  mk_Outcome (o_id o) (p_hash o) v (error o) (api_response o) (timestamp o).
Definition set_error (v : option string) (o : Outcome) : Outcome :=
  mk_Outcome (o_id o) (p_hash o) (status o) v (api_response o) (timestamp o).
Definition set_api_response (v : option ApiCallResult) (o : Outcome) : Outcome :=
  mk_Outcome (o_id o) (p_hash o) (status o) (error o) v (timestamp o).

(** ** The [requests] calls *)

Definition http_get (w : World) (url : pyval) : M state response :=
  exec emit (EvGet url) in
  let* t := now in
  let '(d, r) := requests_get w t url in
  exec elapse d in
  match r with
  | inl e => raise e
  | inr resp => ret resp
  end.

Definition http_post (w : World) (endpoint : string) (payload : pyval)
    (headers : list (string * string)) : M state response :=
  exec emit (EvPost endpoint payload headers) in
  let* t := now in
  let '(d, r) := requests_post w t endpoint payload headers in
  exec elapse d in
  match r with
  | inl e => raise e
  | inr resp => ret resp
  end.

(** [Response.raise_for_status]: an [HTTPError] for 4xx and 5xx. *)
Definition raise_for_status {S} (r : response) : M S unit :=
  if (400 <=? status_code r) && (status_code r <? 500) then
    raise (mk_exn (RequestException HTTPError)
             (pretty (status_code r) +:+ " Client Error: " +:+ reason r
                +:+ " for url: " +:+ resp_url r))
  else if (500 <=? status_code r) && (status_code r <? 600) then
    raise (mk_exn (RequestException HTTPError)
             (pretty (status_code r) +:+ " Server Error: " +:+ reason r
                +:+ " for url: " +:+ resp_url r))
  else ret tt.

(** [Response.json]: the parsed body, or the exception of the decoder. The
    releases of [requests] since 2.27 raise their own [JSONDecodeError], a
    [RequestException], for a body that is not JSON. *)
Definition resp_json {S} (r : response) : M S pyval :=
  match json_result r with
  | inl e => raise e
  | inr v => ret v
  end.

(** ** The functions of the script *)

Definition open_read (path : string) : M state file :=
  exec emit (EvOpenRead path) in
  let* s := get_state in
  match fs s !! path with
  | None => raise (mk_exn FileNotFoundError
                     ("[Errno 2] No such file or directory: '" +:+ path +:+ "'"))
  | Some f => ret f
  end.

Definition json_load {S} (f : file) : M S pyval :=
  match f with
  | Json v => ret v
  | NotJson _ msg => raise (mk_exn JSONDecodeError msg)
  | Broken e => raise e
  end.

Definition load_profiles (file_path : string) : M state pyval :=
  try_except
    (let* f := open_read file_path in
     let* data := json_load f in
     let* _ := py_len data in              (* print(f"... {len(data)} ...") *)
     ret data)
    [ (is_FileNotFoundError, fun _ => sys_exit 1);
      (is_JSONDecodeError, fun _ => sys_exit 1) ].

Definition download_image (w : World) (url : pyval) : M state image :=
  let* response := http_get w url in
  exec raise_for_status response in
  match Image_open w (body response) with
  | inl e => raise e
  | inr img => ret img
  end.

(** [str(imagehash.phash(image))] *)
Definition compute_phash {S} (w : World) (img : image) : M S string :=
  match imagehash_phash w img with
  | inl e => raise e
  | inr h => ret (hex_string h)
  end.

Definition send_to_api (cfg : Config) (w : World) (profile_id : pyval)
    (phash : string) : M state ApiCallResult :=
  let payload := PDict [ ("id", profile_id);
                         ("p_hash", PStr phash);
                         ("matches", PList []) ] in
  let headers := [ ("Content-Type", "application/json") ] in
  let headers := if negb (String.eqb (WORKER_SECRET cfg) "")
                 then headers ++ [ ("X-WORKER-SECRET", WORKER_SECRET cfg) ]
                 else headers in
  try_except
    (let* response := http_post w (API_ENDPOINT cfg) payload headers in
     exec raise_for_status response in
     let* parsed := (if negb (String.eqb (body response) "")
                then resp_json response
                else ret (PDict [])) in
     ret (mk_ApiCallResult true (Some (status_code response)) (Some parsed) None))
    [ (is_RequestException,
       fun e => ret (mk_ApiCallResult false None None (Some (str_exn e)))) ].

Definition process_profile (cfg : Config) (w : World) (profile : pyval)
  : M state Outcome :=
  let* profile_id := py_get profile "id" in
  let* image_url := py_get profile "profile_image_url" in
  let* t := now in
  with_local
    (mk_Outcome profile_id None "failed" None None (isoformat w t))
    (exec try_except
       (exec print w [ Lit "  → Downloading image for profile ";
                       Val profile_id; Lit "..." ] in
        let* img := lift (download_image w image_url) in
        exec print w [ Lit "  → Computing pHash for profile ";
                       Val profile_id; Lit "..." ] in
        let* phash := compute_phash w img in
        exec set_local (set_p_hash (Some phash)) in
        exec print w [ Lit "  → Sending pHash to API for profile ";
                       Val profile_id; Lit "..." ] in
        let* api_result := lift (send_to_api cfg w profile_id phash) in
        exec set_local (set_api_response (Some api_result)) in
        if ar_success api_result then
          exec set_local (set_status "success") in
          print w [ Lit "  ✓ Successfully processed profile "; Val profile_id;
                    Lit " (pHash: "; Txt phash; Lit ")" ]
        else
          exec set_local (set_status "api_failed") in
          exec set_local (set_error (ar_error api_result)) in
          print w [ Lit "  ✗ API failed for profile "; Val profile_id;
                    Lit ": "; Opt (ar_error api_result) ])
       [ (is_Exception,
          fun e =>
            exec set_local (set_error (Some (str_exn e))) in
            print w [ Lit "  ✗ Failed to process profile "; Val profile_id;
                      Lit ": "; Txt (str_exn e) ]) ] in
     get_local).

(** What [json.dump] writes for one result. *)
Definition opt_str (o : option string) : pyval :=
  match o with Some s => PStr s | None => PNone end.

Definition api_result_to_json (r : ApiCallResult) : pyval :=
  PDict ([ ("success", PBool (ar_success r)) ]
         ++ match ar_status_code r with Some c => [ ("status_code", PInt c) ] | None => [] end
         ++ match ar_response r with Some v => [ ("response", v) ] | None => [] end
         ++ match ar_error r with Some e => [ ("error", PStr e) ] | None => [] end).

Definition outcome_to_json (o : Outcome) : pyval :=
  PDict [ ("id", o_id o);
          ("p_hash", opt_str (p_hash o));
          ("status", PStr (status o));
          ("error", opt_str (error o));
          ("api_response",
           match api_response o with
           | Some r => api_result_to_json r
           | None => PNone
           end);
          ("timestamp", PStr (timestamp o)) ].

Definition write_file (path : string) (f : file) : M state unit :=
  modify (fun s => mk_state (clock s) (<[path := f]> (fs s)) (trace s)).

(** [save_results]. The text its handler prints is made of a literal and
    of the [OSError] of [open], which Python builds from the error number,
    its description and the quoted file name. *)
Definition save_results (w : World) (results : list Outcome)
    (output_file : string) : M state unit :=
  try_except
    (exec emit (EvOpenWrite output_file) in
     exec match open_write w output_file with
          | Some e => raise e
          | None => ret tt
          end in
     write_file output_file (Json (PList (map outcome_to_json results))))
    [ (is_Exception, fun _ => ret tt) ].

(** ** The worker pool *)

(** What the thread scheduler adds to the picture: the latency with which
    a free worker takes up a job, and the order in which futures that
    finish at the same instant are handed over. *)
Record Sched : Type := mk_Sched {
  start_delay : nat -> N;       (* job number -> latency of its start *)
  completion : list nat         (* which of the pending futures goes first *)
}.

(** A [Future] object: Python compares and hashes it by identity, which
    [fut_id] stands for. *)
Record future : Type := mk_future {
  fut_id : nat;
  fut_result : result Outcome;  (* value or exception stored by the worker *)
  fut_done : N;                 (* instant at which the job returned *)
  fut_trace : list event        (* I/O calls the job made *)
}.

Definition ThreadPoolExecutor (max_workers : Z) : M state unit :=
  if max_workers <=? 0 then
    raise (mk_exn ValueError "max_workers must be greater than 0")
  else emit (EvPool max_workers).

(** The job of one record, run by a worker thread from instant [start], on
    its own record of calls. *)
Definition submit (cfg : Config) (w : World) (start : N)
    (files : gmap string file) (i : nat) (profile : pyval) : future :=
  let '(r, s') := process_profile cfg w profile (mk_state start files []) in
  mk_future i r (clock s') (trace s').

(** The worker that is free first; [free] lists, for each worker, the
    instant from which it is idle. *)
Fixpoint earliest (best_i : nat) (best : N) (i : nat) (free : list N) : nat :=
  match free with
  | [] => best_i
  | t :: rest =>
      if (t <? best)%N then earliest i t (S i) rest
      else earliest best_i best (S i) rest
  end.

Definition idle_worker (free : list N) : nat :=
  match free with
  | [] => 0%nat
  | t :: rest => earliest 0 t 1 rest
  end.

(** [executor.submit] for every record in turn: the jobs queue up, and each
    is run by the worker that becomes free first, which is busy with it
    until the job returns. *)
Fixpoint submit_all (cfg : Config) (w : World) (sched : Sched)
    (files : gmap string file) (free : list N) (i : nat)
    (items : list pyval) : list (future * pyval) :=
  match items with
  | [] => []
  | profile :: rest =>
      let k := idle_worker free in
      let start := (default 0%N (free !! k) + start_delay sched i)%N in
      let f := submit cfg w start files i profile in
      (f, profile)
        :: submit_all cfg w sched files (<[k := fut_done f]> free) (S i) rest
  end.

(** An order of the pending futures, picked by the scheduler. *)
Fixpoint pick_order {A} (fuel : nat) (pending : list A) (choices : list nat)
  : list A :=
  match fuel with
  | O => []
  | S fuel' =>
      let k := (hd 0 choices `mod` length pending)%nat in
      match pending !! k with
      | None => []
      | Some f => f :: pick_order fuel' (delete k pending) (tl choices)
      end
  end.

Fixpoint insert_by_done (f : future) (l : list future) : list future :=
  match l with
  | [] => [f]
  | g :: rest =>
      if (fut_done f <=? fut_done g)%N then f :: g :: rest
      else g :: insert_by_done f rest
  end.

(** [as_completed(fs)]: every future of [fs] once, in the order in which
    they finish; among futures that finish at the same instant the order
    is the scheduler's. The main thread enters the loop at the instant of
    the submissions, so the futures that are finished by then, which the
    library hands over first and in no particular order, are among those
    that finish at that same instant. *)
Definition as_completed (futs : list future) (choices : list nat)
  : list future :=
  foldr insert_by_done [] (pick_order (length futs) futs choices).

(** [future.result()] returns the stored value or re-raises. *)
Definition future_result {S} (f : future) : M S Outcome :=
  fun s => (fut_result f, s).

(** The collection loop of [main]. *)
Fixpoint collect {S} (futs : list future) (results : list Outcome)
  : M S (list Outcome) :=
  match futs with
  | [] => ret results
  | f :: rest =>
      let* r := future_result f in
      collect rest (results ++ [r])
  end.

(** Leaving the [with] block waits for every job, on the normal and on the
    exceptional path. The calls of the jobs are recorded job by job. *)
Definition shutdown (futs : list future) : M state unit :=
  modify (fun s =>
    mk_state (foldr N.max (clock s) (map fut_done futs)) (fs s)
             (trace s ++ concat (map fut_trace futs))).

Definition finally {S A} (m : M S A) (cleanup : M S unit) : M S A :=
  fun s =>
    let '(r, s') := m s in
    match cleanup s' with
    | (Ret _, s'') => (r, s'')
    | (Raise e, s'') => (Raise e, s'')
    | (SysExit c, s'') => (SysExit c, s'')
    end.

Fixpoint emit_all (evs : list event) : M state unit :=
  match evs with
  | [] => ret tt
  | ev :: rest => exec emit ev in emit_all rest
  end.

(** Lines 224-236 of [main]. *)
Definition run_pool (cfg : Config) (w : World) (sched : Sched)
    (profiles : pyval) : M state (list Outcome) :=
  exec ThreadPoolExecutor (MAX_WORKERS cfg) in
  let* items := py_iter profiles in
  let* s0 := get_state in
  let future_to_profile :=
    submit_all cfg w sched (fs s0)
      (replicate (Z.to_nat (MAX_WORKERS cfg)) (clock s0)) 0 items in
  exec emit_all (map EvSubmit items) in
  let futs := map fst future_to_profile in
  finally
    (collect (as_completed futs (completion sched)) [])
    (shutdown futs).

(** [main]. The banner, the configuration lines and the summary counts are
    console output only; of line 220 the call [len(profiles)] is kept. *)
Definition main (cfg : Config) (w : World) (sched : Sched) : M state unit :=
  let* profiles := load_profiles (INPUT_FILE cfg) in
  if negb (py_truthy profiles) then ret tt
  else
    let* _ := py_len profiles in
    let* results := run_pool cfg w sched profiles in
    exec save_results w results (OUTPUT_FILE cfg) in
    ret tt.

(** Exit status of the interpreter: 0 when [main] returns, 1 after an
    uncaught exception, the argument of [sys.exit] otherwise. *)
Definition exit_status {A} (r : result A) : Z :=
  match r with
  | Ret _ => 0
  | Raise _ => 1
  | SysExit c => c
  end.

Definition initial_state (t0 : N) (files : gmap string file) : state :=
  mk_state t0 files [].

(** * Definitions used in the statements *)

Definition api_payload (profile_id : pyval) (phash : string) : pyval :=
  PDict [ ("id", profile_id); ("p_hash", PStr phash); ("matches", PList []) ].

Definition api_headers (cfg : Config) : list (string * string) :=
  if negb (String.eqb (WORKER_SECRET cfg) "")
  then [ ("Content-Type", "application/json");
         ("X-WORKER-SECRET", WORKER_SECRET cfg) ]
  else [ ("Content-Type", "application/json") ].

Definition api_failure (msg : string) : ApiCallResult :=
  mk_ApiCallResult false None None (Some msg).

Definition http_error_msg (kind : string) (r : response) : string :=
  pretty (status_code r) +:+ kind +:+ reason r +:+ " for url: " +:+ resp_url r.

(** What the [except] clause of [send_to_api] makes of an exception. *)
Definition api_caught (e : exn) : result ApiCallResult :=
  if is_RequestException e then Ret (api_failure (str_exn e)) else Raise e.

(** What [send_to_api] does, read off the reply of the endpoint. *)
Definition api_reply (r : exn + response) : result ApiCallResult :=
  match r with
  | inl e => api_caught e
  | inr resp =>
      if (400 <=? status_code resp) && (status_code resp <? 500) then
        Ret (api_failure (http_error_msg " Client Error: " resp))
      else if (500 <=? status_code resp) && (status_code resp <? 600) then
        Ret (api_failure (http_error_msg " Server Error: " resp))
      else if String.eqb (body resp) "" then
        Ret (mk_ApiCallResult true (Some (status_code resp))
               (Some (PDict [])) None)
      else
        match json_result resp with
        | inl e => api_caught e
        | inr v =>
            Ret (mk_ApiCallResult true (Some (status_code resp)) (Some v) None)
        end
  end.

(** What [download_image] does, read off the reply of the server. *)
Definition fetch_reply (w : World) (r : exn + response) : result image :=
  match r with
  | inl e => Raise e
  | inr resp =>
      if (400 <=? status_code resp) && (status_code resp <? 500) then
        Raise (mk_exn (RequestException HTTPError)
                 (http_error_msg " Client Error: " resp))
      else if (500 <=? status_code resp) && (status_code resp <? 600) then
        Raise (mk_exn (RequestException HTTPError)
                 (http_error_msg " Server Error: " resp))
      else
        match Image_open w (body resp) with
        | inl e => Raise e
        | inr img => Ret img
        end
  end.

Definition is_dict (v : pyval) : bool :=
  match v with PDict _ => true | _ => false end.


(** A record that is an object whose id can be printed. *)
Definition printable_record (p : pyval) : bool :=
  match p with
  | PDict kvs => printable_val (dict_get kvs "id")
  | _ => false
  end.

Definition printable_text (s : string) : bool := negb (has_surrogate s).

(** The messages of [process_profile] (lines 153, 172 and 176). *)
Definition downloading_msg (profile_id : pyval) : list fragment :=
  [ Lit "  → Downloading image for profile "; Val profile_id; Lit "..." ].

Definition api_failed_msg (profile_id : pyval) (err : option string)
  : list fragment :=
  [ Lit "  ✗ API failed for profile "; Val profile_id; Lit ": "; Opt err ].

Definition failed_msg (profile_id : pyval) (e : exn) : list fragment :=
  [ Lit "  ✗ Failed to process profile "; Val profile_id; Lit ": ";
    Txt (str_exn e) ].

Definition print_error (w : World) (parts : list fragment) : exn :=
  mk_exn UnicodeEncodeError (codec_error_text w parts).

(** The [except] clause of [process_profile] at work on the result [o]:
    the error is recorded and the message printed, or the print fails. *)
Definition on_failure (w : World) (profile_id : pyval) (o : Outcome)
    (e : exn) (s : state) : result Outcome * state :=
  if printable_val profile_id && printable_text (str_exn e)
  then (Ret (set_error (Some (str_exn e)) o), s)
  else (Raise (print_error w (failed_msg profile_id e)), s).

(** Every error text that the fetch, the hash and the report of a world
    produce can be printed. *)
Definition printable_errors (cfg : Config) (w : World) : Prop :=
  (forall url s e s1,
     download_image w url s = (Raise e, s1) ->
     printable_text (str_exn e) = true) /\
  (forall img e,
     imagehash_phash w img = inl e -> printable_text (str_exn e) = true) /\
  (forall profile_id h s e s1,
     send_to_api cfg w profile_id h s = (Raise e, s1) ->
     printable_text (str_exn e) = true) /\
  (forall profile_id h s r s1 msg,
     send_to_api cfg w profile_id h s = (Ret r, s1) ->
     ar_error r = Some msg -> printable_text msg = true).

(** What a worker thread computes for a record when it starts at [start]. *)
Definition job_at (cfg : Config) (w : World) (files : gmap string file)
    (start : N) (p : pyval) : result Outcome :=
  fst (process_profile cfg w p (mk_state start files [])).

(** The futures of a run, in submission order. *)
Definition futures_of (cfg : Config) (w : World) (sched : Sched) (s : state)
    (items : list pyval) : list future :=
  map fst (submit_all cfg w sched (fs s)
             (replicate (Z.to_nat (MAX_WORKERS cfg)) (clock s)) 0 items).

(** The state the pool leaves behind. *)
Definition after_pool (cfg : Config) (w : World) (sched : Sched) (s : state)
    (items : list pyval) : state :=
  let futs := futures_of cfg w sched s items in
  mk_state (foldr N.max (clock s) (map fut_done futs)) (fs s)
    (trace s ++ [EvPool (MAX_WORKERS cfg)] ++ map EvSubmit items
       ++ concat (map fut_trace futs)).

Definition opened (path : string) (s : state) : state :=
  mk_state (clock s) (fs s) (trace s ++ [EvOpenRead path]).

Definition has_len (v : pyval) : bool :=
  match v with PStr _ | PList _ | PDict _ => true | _ => false end.

(** The [AttributeError] that [.get] raises on a record that is not a
    dictionary. *)
Definition no_get_error (p : pyval) : exn :=
  mk_exn AttributeError
    ("'" +:+ py_type_name p +:+ "' object has no attribute 'get'").

(** The records a loaded value hands to the pool when iterated: the
    elements of a list, the keys of a dictionary, the characters of a
    string. *)
Definition items_of (data : pyval) : list pyval :=
  match data with
  | PList l => l
  | PDict kvs => map (fun kv => PStr (fst kv)) kvs
  | PStr s => chars_of s
  | _ => []
  end.

(** Lines 241-242 of [main]: the counts of the summary. *)
Definition successful (results : list Outcome) : Z :=
  Z.of_nat (length (filter (fun r => status r = "success") results)).

Definition failed (results : list Outcome) : Z :=
  Z.of_nat (length results) - successful results.

Definition count_status (st : string) (results : list Outcome) : Z :=
  Z.of_nat (length (filter (fun r => status r = st) results)).


Definition is_post (ev : event) : bool :=
  match ev with EvPost _ _ _ => true | _ => false end.

Definition count_events (sel : event -> bool) (tr : list event) : nat :=
  length (List.filter sel tr).


(** ** Sample worlds *)

Definition cfg0 : Config :=
  mk_Config "https://api.example/checkImage" "" "profiles.json" "results.json" 5.

Definition cfg_secret : Config :=
  mk_Config "https://api.example/checkImage" "s3cret" "profiles.json"
    "results.json" 5.


Definition no_json : exn + pyval :=
  inl (mk_exn (RequestException RequestsJSONDecodeError)
         "Expecting value: line 1 column 1 (char 0)").

Definition resp_image : response :=
  mk_response 200 "OK" "https://img.example/a.png" "PNG-bytes" no_json.
Definition resp_404 : response :=
  mk_response 404 "Not Found" "https://img.example/a.png" "" no_json.
Definition resp_api_ok : response :=
  mk_response 200 "OK" "https://api.example/checkImage" "[]" (inr (PList [])).
Definition resp_api_500 : response :=
  mk_response 500 "Internal Server Error" "https://api.example/checkImage" ""
    no_json.
Definition resp_api_304 : response :=
  mk_response 304 "Not Modified" "https://api.example/checkImage" "" no_json.

Definition sample_hash : list hexdigit :=
  [ HexC; Hex3; HexD; Hex4; HexE; Hex5; HexF; Hex6;
    HexA; Hex7; HexB; Hex8; HexC; Hex9; HexD; Hex0 ].

Definition codec_text (parts : list fragment) : string :=
  "'utf-8' codec can't encode character: surrogates not allowed".

(** A world whose servers always answer the same: the download takes two
    ticks, the report three. *)
Definition world_of (get post : exn + response) : World :=
  mk_World (fun _ _ => (2%N, get))
           (fun _ _ _ _ => (3%N, post))
           (fun content => inr (Image content))
           (fun _ => inr sample_hash)
           (fun t => pretty t)
           (fun _ => None)
           codec_text.

Definition w_ok : World := world_of (inr resp_image) (inr resp_api_ok).
Definition w_404 : World := world_of (inr resp_404) (inr resp_api_ok).
Definition w_500 : World := world_of (inr resp_image) (inr resp_api_500).
Definition w_304 : World := world_of (inr resp_image) (inr resp_api_304).

(** A world in which [requests.post] raises an exception that is not one
    of [requests]: the secret header cannot be encoded as latin-1. *)
Definition header_error : exn :=
  mk_exn UnicodeEncodeError
    "'latin-1' codec can't encode character in position 0: ordinal not in range(256)".

Definition w_header : World := world_of (inr resp_image) (inl header_error).

(** A world whose hash library rejects every image, and one whose output
    file cannot be opened for writing. *)
Definition w_badhash : World :=
  mk_World (fun _ _ => (2%N, inr resp_image))
           (fun _ _ _ _ => (3%N, inr resp_api_ok))
           (fun content => inr (Image content))
           (fun _ => inl (mk_exn OSError "image file is truncated"))
           (fun t => pretty t)
           (fun _ => None)
           codec_text.

Definition w_readonly : World :=
  mk_World (fun _ _ => (2%N, inr resp_image))
           (fun _ _ _ _ => (3%N, inr resp_api_ok))
           (fun content => inr (Image content))
           (fun _ => inr sample_hash)
           (fun t => pretty t)
           (fun _ => Some (mk_exn OSError "[Errno 13] Permission denied"))
           codec_text.

(** The string made of the lone surrogate U+D800. *)
Definition lone_surrogate : string :=
  String "237"%char (String "160"%char (String "128"%char EmptyString)).

(** A world in which the download fails on a URL without scheme, the URL
    being quoted in the text of the error as [requests] does. *)
Definition bad_url : string := "x/" +:+ lone_surrogate.

Definition w_bad_url : World :=
  world_of (inl (mk_exn (RequestException MissingSchema)
                   ("Invalid URL 'x/\ud800': No scheme supplied. "
                      +:+ "Perhaps you meant https://" +:+ bad_url +:+ "?")))
           (inr resp_api_ok).

Definition rec1 : list (string * pyval) :=
  [ ("id", PStr "p1"); ("profile_image_url", PStr "https://img.example/a.png") ].
Definition rec2 : list (string * pyval) :=
  [ ("id", PStr "p2"); ("profile_image_url", PStr "https://img.example/b.png") ].
Definition rec_bad_url : list (string * pyval) :=
  [ ("id", PStr "p4"); ("profile_image_url", PStr bad_url) ].
Definition rec_bad_id : list (string * pyval) :=
  [ ("id", PStr lone_surrogate);
    ("profile_image_url", PStr "https://img.example/a.png") ].

Definition s0 : state := mk_state 0 ∅ [].

Definition sched0 : Sched := mk_Sched (fun i => N.of_nat i) [1%nat; 0%nat].

Definition files_of (v : pyval) : gmap string file :=
  {[ "profiles.json" := Json v ]}.

(** * Properties *)

(** ** Text *)

Ltac unfold_monad :=
  unfold bind, ret, raise, sys_exit, try_except, with_local, lift, get_local,
    set_local, get_state, modify, emit, elapse, now in *.

Lemma hex_string_printable (h : list hexdigit) :
  printable_text (hex_string h) = true.
Proof.
  unfold printable_text.
  induction h as [|d h IH]; [reflexivity|].
  destruct h as [|d' h]; [reflexivity|].
  cbn [hex_string has_surrogate] in *.
  replace (surrogate_start (hex_char d) (hex_char d')) with false
    by (destruct d; reflexivity).
  exact IH.
Qed.

(** A print whose only pieces that vary are the id and one text. *)
Lemma print_eq {S} (w : World) (parts : list fragment) (s : S) :
  print w parts s =
  (if forallb printable_fragment parts then Ret tt
   else Raise (print_error w parts), s).
Proof.
  unfold print, print_error. destruct (forallb _ _); reflexivity.
Qed.

Lemma forallb_msg3 (a b : string) (v : pyval) :
  has_surrogate a = false -> has_surrogate b = false ->
  forallb printable_fragment [Lit a; Val v; Lit b] = printable_val v.
Proof.
  intros Ha Hb. cbn. rewrite Ha, Hb. cbn.
  rewrite andb_true_r. reflexivity.
Qed.

Lemma forallb_msg5 (a b c : string) (v : pyval) (h : list hexdigit) :
  has_surrogate a = false -> has_surrogate b = false ->
  has_surrogate c = false ->
  forallb printable_fragment [Lit a; Val v; Lit b; Txt (hex_string h); Lit c]
  = printable_val v.
Proof.
  intros Ha Hb Hc. cbn. rewrite Ha, Hb, Hc.
  pose proof (hex_string_printable h) as Hh. unfold printable_text in Hh.
  rewrite Hh. cbn. rewrite andb_true_r. reflexivity.
Qed.

Lemma forallb_msg4 (a b : string) (v : pyval) (f : fragment) :
  has_surrogate a = false -> has_surrogate b = false ->
  forallb printable_fragment [Lit a; Val v; Lit b; f]
  = printable_val v && printable_fragment f.
Proof.
  intros Ha Hb. cbn. rewrite Ha, Hb. cbn.
  rewrite andb_true_r. reflexivity.
Qed.

(** ** The stages *)

Arguments print : simpl never.
Arguments forallb : simpl never.
Arguments has_surrogate : simpl never.

Section Stages.

Context (cfg : Config) (w : World).

Lemma send_to_api_eq (profile_id : pyval) (phash : string) (s : state) :
  send_to_api cfg w profile_id phash s =
  let endpoint := API_ENDPOINT cfg in
  let payload := api_payload profile_id phash in
  let headers := api_headers cfg in
  (api_reply (snd (requests_post w (clock s) endpoint payload headers)),
   mk_state (clock s + fst (requests_post w (clock s) endpoint payload headers))%N
            (fs s) (trace s ++ [EvPost endpoint payload headers])).
Proof.
  unfold send_to_api, http_post, raise_for_status, resp_json, api_reply,
    api_caught, api_headers, api_payload, http_error_msg.
  unfold_monad. cbn.
  destruct (negb (String.eqb (WORKER_SECRET cfg) "")); cbn;
    match goal with
    | |- context [requests_post ?a ?b ?c ?d ?e] =>
        destruct (requests_post a b c d e) as [d0 [e0|resp]]
    end; cbn;
    try (destruct (is_RequestException e0); reflexivity);
    destruct ((400 <=? status_code resp) && (status_code resp <? 500)); cbn;
      try reflexivity;
    destruct ((500 <=? status_code resp) && (status_code resp <? 600)); cbn;
      try reflexivity;
    destruct (String.eqb (body resp) ""); cbn; try reflexivity;
    destruct (json_result resp) as [e1|v]; cbn; try reflexivity;
    destruct (is_RequestException e1); reflexivity.
Qed.

Lemma api_reply_no_exit (r : exn + response) (c : Z) :
  api_reply r <> SysExit c.
Proof.
  unfold api_reply, api_caught. destruct r as [e|resp].
  { destruct (is_RequestException e); discriminate. }
  repeat match goal with
         | |- context [if ?b then _ else _] => destruct b
         end; try discriminate.
  destruct (json_result resp) as [e|v]; [|discriminate].
  destruct (is_RequestException e); discriminate.
Qed.

Lemma download_image_eq (url : pyval) (s : state) :
  download_image w url s =
  (fetch_reply w (snd (requests_get w (clock s) url)),
   mk_state (clock s + fst (requests_get w (clock s) url))%N
            (fs s) (trace s ++ [EvGet url])).
Proof.
  unfold download_image, http_get, raise_for_status, fetch_reply,
    http_error_msg.
  unfold_monad. cbn.
  destruct (requests_get w (clock s) url) as [d [f|resp]]; cbn;
    try reflexivity.
  destruct ((400 <=? status_code resp) && (status_code resp <? 500)); cbn;
    try reflexivity.
  destruct ((500 <=? status_code resp) && (status_code resp <? 600)); cbn;
    try reflexivity.
  destruct (Image_open w (body resp)); reflexivity.
Qed.

Lemma fetch_reply_no_exit (r : exn + response) (c : Z) :
  fetch_reply w r <> SysExit c.
Proof.
  unfold fetch_reply. destruct r as [f|resp]; [discriminate|].
  repeat match goal with
         | |- context [if ?b then _ else _] => destruct b
         end; try discriminate.
  destruct (Image_open w (body resp)); discriminate.
Qed.

(** The step-by-step reading of [process_profile] on a dictionary. *)
Lemma process_profile_dict (kvs : list (string * pyval)) (s : state) :
  process_profile cfg w (PDict kvs) s =
  let profile_id := dict_get kvs "id" in
  let o0 := mk_Outcome profile_id None "failed" None None
              (isoformat w (clock s)) in
  if negb (printable_val profile_id) then
    (Raise (print_error w
              (failed_msg profile_id
                 (print_error w (downloading_msg profile_id)))), s)
  else
    match download_image w (dict_get kvs "profile_image_url") s with
    | (Raise e, s1) => on_failure w profile_id o0 e s1
    | (SysExit c, s1) => (SysExit c, s1)
    | (Ret img, s1) =>
        match imagehash_phash w img with
        | inl e => on_failure w profile_id o0 e s1
        | inr h =>
            let o1 := set_p_hash (Some (hex_string h)) o0 in
            match send_to_api cfg w profile_id (hex_string h) s1 with
            | (Raise e, s2) => on_failure w profile_id o1 e s2
            | (SysExit c, s2) => (SysExit c, s2)
            | (Ret r, s2) =>
                let o2 := set_api_response (Some r) o1 in
                if ar_success r then (Ret (set_status "success" o2), s2)
                else
                  let o3 := set_error (ar_error r)
                              (set_status "api_failed" o2) in
                  if printable_fragment (Opt (ar_error r)) then (Ret o3, s2)
                  else on_failure w profile_id o3
                         (print_error w
                            (api_failed_msg profile_id (ar_error r))) s2
            end
        end
    end.
Proof.
  unfold process_profile, py_get, compute_phash, on_failure, failed_msg,
    downloading_msg, api_failed_msg, printable_text.
  unfold_monad. cbn.
  rewrite print_eq, forallb_msg3 by reflexivity.
  destruct (printable_val (dict_get kvs "id")) eqn:Hid; cbn.
  2:{ rewrite print_eq, forallb_msg4 by reflexivity. rewrite Hid.
      reflexivity. }
  destruct (download_image w _ s) as [[img|e|c] s1]; cbn.
  2:{ rewrite print_eq, forallb_msg4 by reflexivity. rewrite Hid. cbn.
      destruct (negb (has_surrogate (str_exn e))); reflexivity. }
  2:{ reflexivity. }
  rewrite print_eq, forallb_msg3 by reflexivity. rewrite Hid. cbn.
  destruct (imagehash_phash w img) as [e|h]; cbn.
  { rewrite print_eq, forallb_msg4 by reflexivity. rewrite Hid. cbn.
    destruct (negb (has_surrogate (str_exn e))); reflexivity. }
  rewrite print_eq, forallb_msg3 by reflexivity. rewrite Hid. cbn.
  destruct (send_to_api cfg w _ (hex_string h) s1) as [[r|e|c] s2]; cbn.
  2:{ rewrite print_eq, forallb_msg4 by reflexivity. rewrite Hid. cbn.
      destruct (negb (has_surrogate (str_exn e))); reflexivity. }
  2:{ reflexivity. }
  destruct (ar_success r); cbn.
  { rewrite print_eq, forallb_msg5 by reflexivity. rewrite Hid. reflexivity. }
  rewrite print_eq, forallb_msg4 by reflexivity. rewrite Hid. cbn.
  destruct (ar_error r) as [m|]; cbn; [|reflexivity].
  destruct (has_surrogate m); cbn; [|reflexivity].
  rewrite print_eq, forallb_msg4 by reflexivity. rewrite Hid. cbn.
  destruct (negb (has_surrogate _)); reflexivity.
Qed.

End Stages.
Section Outcomes.

Context (cfg : Config) (w : World).

Lemma process_profile_non_dict (p : pyval) (s : state) :
  is_dict p = false ->
  process_profile cfg w p s =
  (Raise (mk_exn AttributeError
            ("'" +:+ py_type_name p +:+ "' object has no attribute 'get'")), s).
Proof.
  intros Hp. destruct p; try discriminate Hp; reflexivity.
Qed.

Lemma api_reply_error (x : exn + response) (r : ApiCallResult) :
  api_reply x = Ret r -> ar_success r = false -> is_Some (ar_error r).
Proof.
  unfold api_reply, api_caught, api_failure. destruct x as [e|resp].
  { destruct (is_RequestException e); intros [= <-]; cbn; eauto. }
  repeat match goal with
         | |- context [if ?b then _ else _] => destruct b
         end; try (intros [= <-]; cbn; eauto; discriminate).
  destruct (json_result resp) as [e|v].
  - destruct (is_RequestException e); intros [= <-]; cbn; eauto.
  - intros [= <-]; cbn; discriminate.
Qed.

Lemma send_to_api_error (profile_id : pyval) (h : string) (s s' : state)
    (r : ApiCallResult) :
  send_to_api cfg w profile_id h s = (Ret r, s') ->
  ar_success r = false -> is_Some (ar_error r).
Proof.
  rewrite send_to_api_eq. cbn zeta. intros [= Hr _].
  exact (api_reply_error _ _ Hr).
Qed.

Lemma on_failure_ret (profile_id : pyval) (o o' : Outcome) (e : exn)
    (s s' : state) :
  on_failure w profile_id o e s = (Ret o', s') ->
  o' = set_error (Some (str_exn e)) o /\ s' = s /\
  printable_val profile_id = true /\ printable_text (str_exn e) = true.
Proof.
  unfold on_failure.
  destruct (printable_val profile_id); cbn; [|discriminate].
  destruct (printable_text (str_exn e)); cbn; [|discriminate].
  intros [= <- <-]. repeat split.
Qed.

Lemma on_failure_raise (profile_id : pyval) (o : Outcome) (e e' : exn)
    (s s' : state) :
  on_failure w profile_id o e s = (Raise e', s') ->
  e' = print_error w (failed_msg profile_id e) /\ s' = s.
Proof.
  unfold on_failure. destruct (_ && _); [discriminate|].
  intros [= <- <-]. split; reflexivity.
Qed.

Lemma on_failure_no_exit (profile_id : pyval) (o : Outcome) (e : exn)
    (s s' : state) (c : Z) :
  on_failure w profile_id o e s <> (SysExit c, s').
Proof. unfold on_failure. destruct (_ && _); discriminate. Qed.

Lemma on_failure_printable (profile_id : pyval) (o : Outcome) (e : exn)
    (s : state) :
  printable_val profile_id = true -> printable_text (str_exn e) = true ->
  on_failure w profile_id o e s = (Ret (set_error (Some (str_exn e)) o), s).
Proof. intros H1 H2. unfold on_failure. rewrite H1, H2. reflexivity. Qed.

(** The shapes an outcome of [process_profile] can have. *)
Lemma process_profile_shape (p : pyval) (s s' : state) (o : Outcome) :
  process_profile cfg w p s = (Ret o, s') ->
  let o0 := mk_Outcome (o_id o) None "failed" None None
              (isoformat w (clock s)) in
  (exists msg, o = set_error (Some msg) o0)
  \/ (exists h msg, o = set_error (Some msg) (set_p_hash (Some h) o0))
  \/ (exists h r, ar_success r = true /\
        o = set_status "success"
              (set_api_response (Some r) (set_p_hash (Some h) o0)))
  \/ (exists h r msg, ar_success r = false /\
        o = set_error (Some msg)
              (set_status "api_failed"
                 (set_api_response (Some r) (set_p_hash (Some h) o0)))).
Proof.
  intros H o0.
  destruct (is_dict p) eqn:Hp.
  2:{ rewrite process_profile_non_dict in H by exact Hp. discriminate H. }
  destruct p as [| | | | |kvs]; try discriminate Hp.
  rewrite process_profile_dict in H. cbn zeta in H.
  destruct (negb (printable_val (dict_get kvs "id"))); [discriminate H|].
  destruct (download_image w _ s) as [[img|e|c] s1]; [| |discriminate H].
  2:{ apply on_failure_ret in H as (-> & _). left. eexists. reflexivity. }
  destruct (imagehash_phash w img) as [e|h].
  { apply on_failure_ret in H as (-> & _). left. eexists. reflexivity. }
  destruct (send_to_api cfg w _ (hex_string h) s1) as [[r|e|c] s2] eqn:Hs;
    [| |discriminate H].
  2:{ apply on_failure_ret in H as (-> & _). right. left.
      eexists _, _. reflexivity. }
  destruct (ar_success r) eqn:Hok.
  { injection H as <- _. right. right. left. exists (hex_string h), r.
    split; [exact Hok|reflexivity]. }
  right. right. right.
  destruct (send_to_api_error _ _ _ _ _ Hs Hok) as [msg Hm].
  destruct (printable_fragment (Opt (ar_error r))).
  - injection H as <- _. exists (hex_string h), r, msg.
    split; [exact Hok|]. rewrite Hm. reflexivity.
  - apply on_failure_ret in H as (-> & _).
    eexists (hex_string h), r, _. split; [exact Hok|]. reflexivity.
Qed.

Lemma process_profile_clock (p : pyval) (s s' : state) (r : result Outcome) :
  process_profile cfg w p s = (r, s') -> (clock s <= clock s')%N.
Proof.
  destruct (is_dict p) eqn:Hp.
  2:{ rewrite process_profile_non_dict by exact Hp. intros [= <- <-]. lia. }
  destruct p as [| | | | |kvs]; try discriminate Hp.
  rewrite process_profile_dict. cbn zeta.
  destruct (negb (printable_val (dict_get kvs "id")));
    [intros [= <- <-]; lia|].
  rewrite download_image_eq.
  assert (Hf : forall id o e (st st' : state) x,
             on_failure w id o e st = (x, st') -> clock st' = clock st).
  { intros id o e st st' x. unfold on_failure.
    destruct (_ && _); intros [= <- <-]; reflexivity. }
  destruct (fetch_reply w _) as [img|e|c].
  2:{ intros H. apply Hf in H. rewrite H. cbn. lia. }
  2:{ intros [= <- <-]. cbn. lia. }
  destruct (imagehash_phash w img) as [e|h].
  { intros H. apply Hf in H. rewrite H. cbn. lia. }
  rewrite send_to_api_eq. cbn zeta.
  destruct (api_reply _) as [r0|e|c].
  2:{ intros H. apply Hf in H. rewrite H. cbn. lia. }
  2:{ intros [= <- <-]. cbn. lia. }
  destruct (ar_success r0); [intros [= <- <-]; cbn; lia|].
  destruct (printable_fragment _); [intros [= <- <-]; cbn; lia|].
  intros H. apply Hf in H. rewrite H. cbn. lia.
Qed.

(** On an object whose id and error texts can be printed, the job returns
    an outcome. *)
Lemma process_profile_returns (kvs : list (string * pyval)) (s : state) :
  printable_val (dict_get kvs "id") = true ->
  printable_errors cfg w ->
  exists o s', process_profile cfg w (PDict kvs) s = (Ret o, s').
Proof.
  intros Hid (Hget & Hhash & Hraise & Herr).
  rewrite process_profile_dict. cbn zeta. rewrite Hid. cbn [negb].
  destruct (download_image w _ s) as [[img|e|c] s1] eqn:Hd.
  - destruct (imagehash_phash w img) as [e|h] eqn:Hh.
    { rewrite on_failure_printable by eauto. eauto. }
    destruct (send_to_api cfg w _ (hex_string h) s1) as [[r|e|c] s2] eqn:Hs.
    + destruct (ar_success r); [eauto|].
      destruct (ar_error r) as [msg|] eqn:Hm; cbn.
      * pose proof (Herr _ _ _ _ _ _ Hs Hm) as Hp.
        unfold printable_text in Hp. rewrite Hp. eauto.
      * eauto.
    + rewrite on_failure_printable by eauto. eauto.
    + exfalso. rewrite send_to_api_eq in Hs. injection Hs as Hs _.
      exact (api_reply_no_exit _ _ Hs).
  - rewrite on_failure_printable by eauto. eauto.
  - exfalso. rewrite download_image_eq in Hd. injection Hd as Hd _.
    exact (fetch_reply_no_exit _ _ _ Hd).
Qed.

(** On an object, nothing but the handler's own print can fail. *)
Lemma process_profile_dict_cases (kvs : list (string * pyval)) (s : state) :
  (exists o s', process_profile cfg w (PDict kvs) s = (Ret o, s'))
  \/ (exists e0 s',
        process_profile cfg w (PDict kvs) s
        = (Raise (print_error w (failed_msg (dict_get kvs "id") e0)), s')).
Proof.
  rewrite process_profile_dict. cbn zeta.
  assert (Hf : forall o e st,
    (exists o' s', on_failure w (dict_get kvs "id") o e st = (Ret o', s'))
    \/ (exists e0 s', on_failure w (dict_get kvs "id") o e st
          = (Raise (print_error w (failed_msg (dict_get kvs "id") e0)), s'))).
  { intros o e st. unfold on_failure. destruct (_ && _); eauto. }
  destruct (negb (printable_val (dict_get kvs "id"))); [eauto|].
  destruct (download_image w _ s) as [[img|e|c] s1] eqn:Hd.
  - destruct (imagehash_phash w img) as [e|h]; [apply Hf|].
    destruct (send_to_api cfg w _ (hex_string h) s1) as [[r|e|c] s2] eqn:Hs.
    + destruct (ar_success r); [eauto|].
      destruct (printable_fragment _); [eauto|apply Hf].
    + apply Hf.
    + exfalso. rewrite send_to_api_eq in Hs. injection Hs as Hs _.
      exact (api_reply_no_exit _ _ Hs).
  - apply Hf.
  - exfalso. rewrite download_image_eq in Hd. injection Hd as Hd _.
    exact (fetch_reply_no_exit _ _ _ Hd).
Qed.

End Outcomes.

(** ** The sample worlds *)

Ltac settle_sample H :=
  vm_compute in H;
  first [ discriminate H
        | try (injection H as H); subst; reflexivity ].

Ltac sample_world :=
  split; [|split; [|split]];
  [ intros url s e s1 H; rewrite download_image_eq in H;
    injection H as H _; settle_sample H
  | intros img e H; settle_sample H
  | intros profile_id h s e s1 H; rewrite send_to_api_eq in H;
    injection H as H _; settle_sample H
  | intros profile_id h s r s1 msg H Hm; rewrite send_to_api_eq in H;
    injection H as H _; vm_compute in H;
    first [ discriminate H
          | try (injection H as H); subst r; settle_sample Hm ] ].

Lemma w_ok_printable (cfg : Config) : printable_errors cfg w_ok.
Proof. sample_world. Qed.



(** ** The reporting stage *)




(** A status that is neither 2xx nor an error for [raise_for_status] is
    reported as a success. *)
Example send_to_api_304 :
  fst (send_to_api cfg0 w_304 (PStr "p1") "c3d4e5f6a7b8c9d0" s0)
    = Ret (mk_ApiCallResult true (Some 304) (Some (PDict [])) None).
Proof. reflexivity. Qed.

(** An exception of [requests.post] that is not a [RequestException]
    leaves [send_to_api]. *)
Example send_to_api_header_error :
  fst (send_to_api cfg_secret w_header (PStr "p1") "c3d4e5f6a7b8c9d0" s0)
    = Raise header_error.
Proof. reflexivity. Qed.

(** ** The pipeline of one record *)





(** C4 (as amended): when the download of the image of a record object
    fails (transport error, 4xx or 5xx status, or a body that is not an
    image), every outcome that [process_profile] returns has status
    failed, no hash, the message of the fetch error and no
    [api_response], and the only I/O call made is the GET, so the report
    stage is not entered. It does return an outcome when the id of the
    record and the text of the fetch error can be printed. *)
Theorem fetch_failure_outcome (cfg : Config) (w : World)
    (kvs : list (string * pyval)) (s s1 : state) (e : exn) :
  download_image w (dict_get kvs "profile_image_url") s = (Raise e, s1) ->
  (forall o s',
     process_profile cfg w (PDict kvs) s = (Ret o, s') ->
     s' = s1 /\
     o_id o = dict_get kvs "id" /\
     status o = "failed" /\
     p_hash o = None /\
     error o = Some (str_exn e) /\
     api_response o = None /\
     trace s' = trace s ++ [EvGet (dict_get kvs "profile_image_url")]) /\
  (printable_val (dict_get kvs "id") = true ->
   printable_text (str_exn e) = true ->
   exists o, process_profile cfg w (PDict kvs) s = (Ret o, s1)).
Proof.
  intros Hd. rewrite process_profile_dict. cbn zeta. rewrite Hd.
  split.
  - intros o s'.
    destruct (negb (printable_val (dict_get kvs "id"))); [discriminate|].
    intros H. apply on_failure_ret in H as (-> & -> & _).
    rewrite download_image_eq in Hd. injection Hd as _ <-.
    repeat split.
  - intros Hid He. rewrite Hid. cbn [negb].
    rewrite on_failure_printable by assumption. eauto.
Qed.

Lemma fetch_failure_outcome_witness :
  exists o,
    process_profile cfg0 w_404 (PDict rec1) s0
      = (Ret o, mk_state 2 ∅ [EvGet (PStr "https://img.example/a.png")]) /\
    status o = "failed" /\ p_hash o = None /\ api_response o = None /\
    error o
      = Some "404 Client Error: Not Found for url: https://img.example/a.png".
Proof.
  destruct (fetch_failure_outcome cfg0 w_404 rec1 s0
              (mk_state 2 ∅ [EvGet (PStr "https://img.example/a.png")])
              (mk_exn (RequestException HTTPError)
                 "404 Client Error: Not Found for url: https://img.example/a.png"))
    as (Hfields & Hex); [reflexivity|].
  destruct Hex as [o Ho]; [reflexivity|reflexivity|].
  destruct (Hfields o _ Ho) as (_ & _ & Hs & Hh & He & Ha & _).
  exists o. repeat split; assumption.
Defined.

(** C4 fails as stated: the URL of the record has no scheme and holds a
    lone surrogate, the download fails with the error of [requests] that
    quotes the URL, the handler's print cannot encode that text, and
    [process_profile] raises instead of returning an outcome. *)
Lemma fetch_failure_without_outcome :
  (exists e s1,
     download_image w_bad_url (dict_get rec_bad_url "profile_image_url") s0
     = (Raise e, s1) /\
     exn_cls e = RequestException MissingSchema) /\
  (exists e' s1,
     process_profile cfg0 w_bad_url (PDict rec_bad_url) s0 = (Raise e', s1) /\
     exn_cls e' = UnicodeEncodeError).
Proof.
  split; eexists _, _; split; reflexivity.
Qed.

(** C5 (as amended): when download and hashing of a record object succeed
    and [send_to_api] returns a failure, every outcome that
    [process_profile] returns has status api_failed and carries the hash
    and the failed [api_response]; its error is the error of that response
    when that text can be printed, and an outcome is returned whenever the
    id and that text can be printed. *)
Theorem report_failure_outcome (cfg : Config) (w : World)
    (kvs : list (string * pyval)) (s s1 s2 : state) (img : image)
    (h : list hexdigit) (r : ApiCallResult) :
  download_image w (dict_get kvs "profile_image_url") s = (Ret img, s1) ->
  imagehash_phash w img = inr h ->
  send_to_api cfg w (dict_get kvs "id") (hex_string h) s1 = (Ret r, s2) ->
  ar_success r = false ->
  (forall o s',
     process_profile cfg w (PDict kvs) s = (Ret o, s') ->
     s' = s2 /\
     o_id o = dict_get kvs "id" /\
     status o = "api_failed" /\
     p_hash o = Some (hex_string h) /\
     api_response o = Some r /\
     is_Some (error o) /\
     (printable_fragment (Opt (ar_error r)) = true -> error o = ar_error r)) /\
  (printable_val (dict_get kvs "id") = true ->
   printable_fragment (Opt (ar_error r)) = true ->
   exists o, process_profile cfg w (PDict kvs) s = (Ret o, s2)).
Proof.
  intros Hd Hh Hs Hf. rewrite process_profile_dict. cbn zeta.
  rewrite Hd, Hh, Hs, Hf.
  destruct (send_to_api_error cfg w _ _ _ _ _ Hs Hf) as [msg Hm].
  split.
  - intros o s'.
    destruct (negb (printable_val (dict_get kvs "id"))); [discriminate|].
    destruct (printable_fragment (Opt (ar_error r))) eqn:Hp.
    + intros [= <- <-]. cbn. rewrite Hm. repeat split; eauto.
    + intros H. apply on_failure_ret in H as (-> & -> & _). cbn.
      repeat split; eauto. discriminate.
  - intros Hid Hp. rewrite Hid, Hp. cbn [negb]. eauto.
Qed.

Lemma report_failure_outcome_witness :
  exists o s2,
    process_profile cfg0 w_500 (PDict rec1) s0 = (Ret o, s2) /\
    status o = "api_failed" /\
    p_hash o = Some "c3d4e5f6a7b8c9d0" /\
    error o
      = Some "500 Server Error: Internal Server Error for url: https://api.example/checkImage".
Proof.
  pose (s1 := mk_state 2 ∅ [EvGet (PStr "https://img.example/a.png")]).
  pose (r := api_failure
               "500 Server Error: Internal Server Error for url: https://api.example/checkImage").
  destruct (report_failure_outcome cfg0 w_500 rec1 s0 s1
              (snd (send_to_api cfg0 w_500 (PStr "p1") "c3d4e5f6a7b8c9d0" s1))
              (Image "PNG-bytes") sample_hash r)
    as (Hfields & Hex); try reflexivity.
  destruct Hex as [o Ho]; [reflexivity|reflexivity|].
  destruct (Hfields o _ Ho) as (_ & _ & Hs & Hh & _ & _ & He).
  exists o, (snd (send_to_api cfg0 w_500 (PStr "p1") "c3d4e5f6a7b8c9d0" s1)).
  split; [exact Ho|]. split; [exact Hs|]. split; [exact Hh|].
  apply He. reflexivity.
Defined.

(** C5 fails as stated: download and hashing succeed and the reporting call
    fails with an exception that is not one of [requests]; [send_to_api]
    lets it through, and the outcome has status failed, carries the hash
    and has no [api_response]. *)
Lemma report_failure_not_api_failed :
  snd (requests_post w_header 2 (API_ENDPOINT cfg_secret)
         (api_payload (PStr "p1") "c3d4e5f6a7b8c9d0") (api_headers cfg_secret))
    = inl header_error /\
  exists o s',
    process_profile cfg_secret w_header (PDict rec1) s0 = (Ret o, s') /\
    status o = "failed" /\
    p_hash o = Some "c3d4e5f6a7b8c9d0" /\
    api_response o = None /\
    error o = Some (str_exn header_error).
Proof.
  split; [reflexivity|]. eexists _, _. repeat split.
Qed.

(** C6: the status of every outcome that [process_profile] returns is one
    of success, failed and api_failed, and its error is set exactly when
    the status is not success. *)
Theorem outcome_status_error (cfg : Config) (w : World) (p : pyval)
    (s s' : state) (o : Outcome) :
  process_profile cfg w p s = (Ret o, s') ->
  (status o = "success" \/ status o = "failed" \/ status o = "api_failed") /\
  (is_Some (error o) <-> status o <> "success").
Proof.
  intros H. apply process_profile_shape in H. cbn zeta in H.
  destruct H as [(msg & ->)|[(h & msg & ->)|[(h & r & _ & ->)|
                 (h & r & msg & _ & ->)]]]; cbn.
  - split; [auto|]. split; [discriminate|eauto].
  - split; [auto|]. split; [discriminate|eauto].
  - split; [auto|]. split; [intros [x [=]]|congruence].
  - split; [auto|]. split; [discriminate|eauto].
Qed.

Lemma outcome_status_error_witness :
  exists o s',
    process_profile cfg0 w_500 (PDict rec1) s0 = (Ret o, s') /\
    (status o = "success" \/ status o = "failed" \/ status o = "api_failed") /\
    (is_Some (error o) <-> status o <> "success").
Proof.
  eexists _, _. split; [reflexivity|].
  eapply (outcome_status_error cfg0 w_500 (PDict rec1) s0). reflexivity.
Defined.

(** C8 (as amended): the timestamp of an outcome is the reading of the
    clock when [process_profile] builds the result record, before the
    download starts; the job returns at that instant or later. *)
Theorem timestamp_at_start (cfg : Config) (w : World) (p : pyval)
    (s s' : state) (o : Outcome) :
  process_profile cfg w p s = (Ret o, s') ->
  timestamp o = isoformat w (clock s) /\ (clock s <= clock s')%N.
Proof.
  intros H. split; [|exact (process_profile_clock _ _ _ _ _ _ H)].
  apply process_profile_shape in H. cbn zeta in H.
  destruct H as [(msg & ->)|[(h & msg & ->)|[(h & r & _ & ->)|
                 (h & r & msg & _ & ->)]]]; reflexivity.
Qed.

Lemma timestamp_at_start_witness :
  exists o s',
    process_profile cfg0 w_ok (PDict rec1) s0 = (Ret o, s') /\
    timestamp o = "0" /\ (0 <= clock s')%N.
Proof.
  eexists _, _. split; [reflexivity|].
  eapply (timestamp_at_start cfg0 w_ok (PDict rec1) s0). reflexivity.
Defined.

(** C8 fails as stated: the job starts at instant 0 and returns at instant
    5, and the timestamp is the rendering of 0, not of 5. *)
Lemma timestamp_not_finish_time :
  exists o s',
    process_profile cfg0 w_ok (PDict rec1) s0 = (Ret o, s') /\
    clock s' = 5%N /\
    timestamp o = isoformat w_ok 0 /\
    timestamp o <> isoformat w_ok (clock s').
Proof.
  eexists _, _. split; [reflexivity|]. cbn. repeat split. discriminate.
Qed.

(** ** The worker pool *)

(** The scheduler's pick yields every pending future exactly once. *)
Lemma pick_order_perm {A} (n : nat) (pending : list A) (choices : list nat) :
  length pending = n ->
  pick_order n pending choices ≡ₚ pending.
Proof.
  revert pending choices.
  induction n as [|n IH]; intros pending choices Hlen.
  - destruct pending; [reflexivity|discriminate].
  - cbn [pick_order].
    set (k := (hd 0 choices `mod` length pending)%nat).
    assert (Hk : (k < length pending)%nat).
    { subst k. apply Nat.mod_upper_bound. lia. }
    destruct (lookup_lt_is_Some_2 pending k Hk) as [f Hf].
    rewrite Hf.
    etrans; [|symmetry; exact (delete_Permutation pending k f Hf)].
    constructor. apply IH.
    rewrite length_delete by eauto. lia.
Qed.

Lemma insert_by_done_perm (f : future) (l : list future) :
  insert_by_done f l ≡ₚ f :: l.
Proof.
  induction l as [|g l IH]; [reflexivity|]. cbn.
  destruct (fut_done f <=? fut_done g)%N; [reflexivity|].
  etrans; [apply perm_skip; exact IH|apply perm_swap].
Qed.

(** [as_completed] yields every future exactly once, whatever the
    scheduler chooses. *)
Lemma as_completed_perm (futs : list future) (choices : list nat) :
  as_completed futs choices ≡ₚ futs.
Proof.
  unfold as_completed.
  etrans; [|apply (pick_order_perm (length futs) futs choices); reflexivity].
  generalize (pick_order (length futs) futs choices). intros l.
  induction l as [|f l IH]; [reflexivity|]. cbn.
  etrans; [apply insert_by_done_perm|]. constructor. exact IH.
Qed.

Lemma insert_by_done_sorted (f : future) (l : list future) :
  Sorted (fun a b => (fut_done a <= fut_done b)%N) l ->
  Sorted (fun a b => (fut_done a <= fut_done b)%N) (insert_by_done f l).
Proof.
  induction 1 as [|g l Hs IH Hhd]; cbn.
  - repeat constructor.
  - destruct (fut_done f <=? fut_done g)%N eqn:Hle.
    + constructor; [constructor; assumption|].
      constructor. apply N.leb_le. exact Hle.
    + constructor; [exact IH|].
      apply N.leb_gt in Hle.
      destruct l as [|g' l]; cbn.
      * constructor. lia.
      * destruct (fut_done f <=? fut_done g')%N; constructor;
          [lia|inversion Hhd; assumption].
Qed.

(** The futures come out of [as_completed] in the order of the instants at
    which their jobs returned. *)
Lemma as_completed_sorted (futs : list future) (choices : list nat) :
  Sorted (fun a b => (fut_done a <= fut_done b)%N)
    (as_completed futs choices).
Proof.
  unfold as_completed.
  generalize (pick_order (length futs) futs choices). intros l.
  induction l as [|f l IH]; cbn; [constructor|].
  apply insert_by_done_sorted. exact IH.
Qed.

Lemma collect_state {S} (futs : list future) (acc : list Outcome) (s : S) :
  snd (collect futs acc s) = s.
Proof.
  revert acc. induction futs as [|f futs IH]; intros acc; [reflexivity|].
  cbn. unfold bind, future_result.
  destruct (fut_result f); cbn; [apply IH|reflexivity|reflexivity].
Qed.

Lemma collect_any_state {S T} (futs : list future) (acc : list Outcome)
    (s : S) (t : T) :
  fst (collect futs acc s) = fst (collect futs acc t).
Proof.
  revert acc. induction futs as [|f futs IH]; intros acc; [reflexivity|].
  cbn. unfold bind, future_result.
  destruct (fut_result f); cbn; [apply IH|reflexivity|reflexivity].
Qed.


(** Conversely, a loop that ends normally has taken a value from every
    future. *)
Lemma collect_ret {S} (futs : list future) (acc results : list Outcome)
    (s s' : S) :
  collect futs acc s = (Ret results, s') ->
  exists vals,
    results = acc ++ vals /\
    Forall2 (fun f o => fut_result f = Ret o) futs vals.
Proof.
  revert acc. induction futs as [|f futs IH]; intros acc; cbn.
  - unfold ret. intros [= <- _]. exists []. rewrite app_nil_r.
    split; [reflexivity|constructor].
  - unfold bind, future_result.
    destruct (fut_result f) as [o|e|c] eqn:Hf; try discriminate.
    intros H. apply IH in H as (vals & -> & Hv).
    exists (o :: vals). rewrite <- app_assoc. split; [reflexivity|].
    constructor; assumption.
Qed.

(** When some job raised, the loop stops with the exception of the first
    such job in completion order. *)
Lemma collect_raises {S} (P : exn -> Prop) (futs : list future)
    (acc : list Outcome) (s : S) :
  Forall (fun f => (exists o, fut_result f = Ret o)
                   \/ (exists e, fut_result f = Raise e /\ P e)) futs ->
  Exists (fun f => exists e, fut_result f = Raise e) futs ->
  exists e, collect futs acc s = (Raise e, s) /\ P e.
Proof.
  intros Hall Hex. revert acc.
  induction Hall as [|f futs Hf Hall IH]; intros acc.
  - inversion Hex.
  - cbn. unfold bind, future_result.
    destruct Hf as [[o Ho]|(e & He & HP)].
    + rewrite Ho. apply IH.
      inversion Hex as [? ? (e & He)|]; subst; [congruence|assumption].
    + rewrite He. eauto.
Qed.

Lemma emit_all_eq (evs : list event) (s : state) :
  emit_all evs s = (Ret tt, mk_state (clock s) (fs s) (trace s ++ evs)).
Proof.
  revert s. induction evs as [|ev evs IH]; intros s; cbn.
  - unfold ret. rewrite app_nil_r. destruct s; reflexivity.
  - unfold_monad. rewrite IH. cbn. rewrite <- app_assoc. reflexivity.
Qed.


Section Pool.

Context (cfg : Config) (w : World) (sched : Sched).

(** The job of a record: [process_profile] on a worker thread. *)
Lemma submit_eq (start : N) (files : gmap string file) (i : nat)
    (p : pyval) :
  fut_id (submit cfg w start files i p) = i /\
  fut_result (submit cfg w start files i p) = job_at cfg w files start p /\
  fut_trace (submit cfg w start files i p)
  = trace (snd (process_profile cfg w p (mk_state start files []))).
Proof.
  unfold submit, job_at. destruct (process_profile _ _ _ _).
  repeat split.
Qed.

(** Every record gets one future, numbered by its position, which holds
    what [process_profile] does on that record from some instant on. *)
Lemma submit_all_lookup (files : gmap string file) (items : list pyval)
    (free : list N) (i0 j : nat) (f : future) (p : pyval) :
  submit_all cfg w sched files free i0 items !! j = Some (f, p) ->
  items !! j = Some p /\
  exists start, f = submit cfg w start files (i0 + j) p.
Proof.
  revert free i0 j.
  induction items as [|q items IH]; intros free i0 j; [discriminate|].
  cbn [submit_all]. destruct j as [|j]; cbn.
  - intros [= <- <-]. split; [reflexivity|]. rewrite Nat.add_0_r. eauto.
  - intros H. apply IH in H as (Hp & start & ->).
    split; [exact Hp|]. exists start. f_equal. lia.
Qed.

Lemma submit_all_length (files : gmap string file) (items : list pyval)
    (free : list N) (i0 : nat) :
  length (submit_all cfg w sched files free i0 items) = length items.
Proof.
  revert free i0. induction items as [|q items IH]; intros free i0;
    [reflexivity|].
  cbn. rewrite IH. reflexivity.
Qed.


Lemma futures_of_length (s : state) (items : list pyval) :
  length (futures_of cfg w sched s items) = length items.
Proof.
  unfold futures_of. rewrite length_map. apply submit_all_length.
Qed.


Lemma futures_of_elem (s : state) (items : list pyval) (f : future) :
  f ∈ futures_of cfg w sched s items ->
  exists p start,
    items !! fut_id f = Some p /\ f = submit cfg w start (fs s) (fut_id f) p.
Proof.
  unfold futures_of. intros Hf.
  apply list_elem_of_fmap in Hf as ([f' p] & -> & Hin).
  apply list_elem_of_lookup_1 in Hin as [j Hj].
  apply submit_all_lookup in Hj as (Hp & start & ->).
  cbn [fst]. destruct (submit_eq start (fs s) (0 + j) p) as [-> _].
  exists p, start. split; [exact Hp|reflexivity].
Qed.

Lemma futures_of_member (s : state) (items : list pyval) (p : pyval) :
  p ∈ items ->
  exists i start,
    items !! i = Some p /\
    submit cfg w start (fs s) i p ∈ futures_of cfg w sched s items.
Proof.
  intros Hin. apply list_elem_of_lookup_1 in Hin as [i Hi].
  pose proof (submit_all_length (fs s) items
                (replicate (Z.to_nat (MAX_WORKERS cfg)) (clock s)) 0) as Hlen.
  destruct (lookup_lt_is_Some_2
              (submit_all cfg w sched (fs s)
                 (replicate (Z.to_nat (MAX_WORKERS cfg)) (clock s)) 0 items) i)
    as [[f q] Hfq].
  { rewrite Hlen. eapply lookup_lt_Some. exact Hi. }
  pose proof Hfq as Hfq'.
  apply submit_all_lookup in Hfq' as (Hq & start & ->).
  rewrite Hi in Hq. injection Hq as <-.
  exists i, start. split; [exact Hi|].
  unfold futures_of. apply list_elem_of_fmap.
  eexists (_, p). split; [reflexivity|].
  eapply list_elem_of_lookup_2. exact Hfq.
Qed.

Lemma run_pool_eq (items : list pyval) (s : state) :
  0 < MAX_WORKERS cfg ->
  run_pool cfg w sched (PList items) s =
  let futs := futures_of cfg w sched s items in
  (fst (collect (as_completed futs (completion sched)) [] s),
   after_pool cfg w sched s items).
Proof.
  intros Hpos. unfold run_pool, ThreadPoolExecutor, py_iter, finally, shutdown.
  replace (MAX_WORKERS cfg <=? 0) with false by lia.
  unfold_monad. cbn. rewrite emit_all_eq. cbn.
  change (map fst (submit_all cfg w sched (fs s)
                     (replicate (Z.to_nat (MAX_WORKERS cfg)) (clock s)) 0 items))
    with (futures_of cfg w sched s items).
  set (futs := futures_of cfg w sched s items).
  set (done := as_completed _ _).
  pose proof (collect_state done []
    (mk_state (clock s) (fs s)
       ((trace s ++ [EvPool (MAX_WORKERS cfg)]) ++ map EvSubmit items))) as Hst.
  rewrite (collect_any_state done [] s
    (mk_state (clock s) (fs s)
       ((trace s ++ [EvPool (MAX_WORKERS cfg)]) ++ map EvSubmit items))).
  destruct (collect done [] (mk_state _ _ _)) as [r st].
  cbn in Hst. subst st. unfold after_pool. cbn. fold futs.
  rewrite <- !app_assoc. reflexivity.
Qed.


End Pool.

Section Runs.

Context (cfg : Config) (w : World) (sched : Sched).




(** A run in which some job raises ends with the exception of such a
    job. *)
Lemma run_pool_raises (P : exn -> Prop) (items : list pyval) (s : state) :
  0 < MAX_WORKERS cfg ->
  Forall (fun f => (exists o, fut_result f = Ret o)
                   \/ (exists e, fut_result f = Raise e /\ P e))
    (futures_of cfg w sched s items) ->
  Exists (fun f => exists e, fut_result f = Raise e)
    (futures_of cfg w sched s items) ->
  exists e,
    run_pool cfg w sched (PList items) s
    = (Raise e, after_pool cfg w sched s items) /\ P e.
Proof.
  intros Hpos Hall Hex. rewrite run_pool_eq by exact Hpos. cbn zeta.
  set (futs := futures_of cfg w sched s items) in *.
  set (done := as_completed futs (completion sched)).
  assert (Hperm : done ≡ₚ futs) by apply as_completed_perm.
  destruct (collect_raises P done [] s) as (e & He & HP).
  - rewrite Hperm. exact Hall.
  - rewrite Hperm. exact Hex.
  - exists e. rewrite He. split; [reflexivity|exact HP].
Qed.

(** With a record that is not a dictionary in the list, the run ends with
    the error of such a record or with the error of a print. *)
Lemma run_pool_non_object (items : list pyval) (s : state) (p : pyval) :
  0 < MAX_WORKERS cfg ->
  p ∈ items ->
  is_dict p = false ->
  exists e,
    run_pool cfg w sched (PList items) s
    = (Raise e, after_pool cfg w sched s items) /\
    ((exists q, q ∈ items /\ is_dict q = false /\ e = no_get_error q)
     \/ exn_cls e = UnicodeEncodeError) /\
    (Forall (fun q => is_dict q = true -> printable_record q = true) items ->
     printable_errors cfg w ->
     exists q, q ∈ items /\ is_dict q = false /\ e = no_get_error q).
Proof.
  intros Hpos Hin Hp.
  set (P := fun e : exn =>
    ((exists q, q ∈ items /\ is_dict q = false /\ e = no_get_error q)
     \/ exn_cls e = UnicodeEncodeError) /\
    (Forall (fun q => is_dict q = true -> printable_record q = true) items ->
     printable_errors cfg w ->
     exists q, q ∈ items /\ is_dict q = false /\ e = no_get_error q)).
  destruct (run_pool_raises P items s Hpos) as (e & He & HP1 & HP2).
  - apply Forall_forall. intros f Hf.
    apply futures_of_elem in Hf as (x & start & Hx & ->).
    destruct (submit_eq cfg w start (fs s) (fut_id f) x) as (_ & -> & _).
    unfold job_at.
    assert (Hxin : x ∈ items) by (eapply list_elem_of_lookup_2; exact Hx).
    destruct (is_dict x) eqn:Hd.
    + destruct x as [| | | | |kvs]; try discriminate Hd.
      destruct (process_profile_dict_cases cfg w kvs
                  (mk_state start (fs s) []))
        as [(o & s' & Ho)|(e0 & s' & Ho)]; rewrite Ho; cbn [fst].
      * left. eauto.
      * right. eexists. split; [reflexivity|]. subst P. cbn beta. split.
        { right. reflexivity. }
        intros Hrec Hw. exfalso.
        rewrite Forall_forall in Hrec.
        specialize (Hrec _ Hxin eq_refl).
        destruct (process_profile_returns cfg w kvs
                    (mk_state start (fs s) []) Hrec Hw) as (o & s'' & Ho').
        rewrite Ho in Ho'. discriminate Ho'.
    + rewrite process_profile_non_dict by exact Hd. cbn [fst].
      right. exists (no_get_error x). split; [reflexivity|].
      subst P. cbn beta. split; [left|intros _ _]; eauto.
  - apply Exists_exists.
    apply futures_of_member with (cfg := cfg) (w := w) (sched := sched)
      (s := s) in Hin as (i & start & _ & Hmem).
    eexists. split; [exact Hmem|].
    destruct (submit_eq cfg w start (fs s) i p) as (_ & -> & _).
    unfold job_at. rewrite process_profile_non_dict by exact Hp.
    eexists. reflexivity.
  - exists e. split; [exact He|]. split; assumption.
Qed.

End Runs.




(** The same happens with an object whose id cannot be printed. *)
Example scheduler_drops_batch_on_unprintable_id :
  exists e,
    fst (run_pool cfg0 w_ok sched0 (PList [PDict rec_bad_id]) s0) = Raise e /\
    exn_cls e = UnicodeEncodeError.
Proof. eexists. split; reflexivity. Qed.

(** ** The whole run *)

Lemma load_profiles_missing (path : string) (s : state) :
  fs s !! path = None ->
  load_profiles path s = (SysExit 1, opened path s).
Proof.
  intros H. unfold load_profiles, open_read. unfold_monad. cbn.
  rewrite H. reflexivity.
Qed.

Lemma load_profiles_not_json (path raw msg : string) (s : state) :
  fs s !! path = Some (NotJson raw msg) ->
  load_profiles path s = (SysExit 1, opened path s).
Proof.
  intros H. unfold load_profiles, open_read. unfold_monad. cbn.
  rewrite H. reflexivity.
Qed.

Lemma load_profiles_broken (path : string) (e : exn) (s : state) :
  fs s !! path = Some (Broken e) ->
  load_profiles path s =
  (if is_FileNotFoundError e || is_JSONDecodeError e then SysExit 1
   else Raise e, opened path s).
Proof.
  intros H. unfold load_profiles, open_read. unfold_monad. cbn.
  rewrite H. cbn.
  destruct (is_FileNotFoundError e); cbn; [reflexivity|].
  destruct (is_JSONDecodeError e); reflexivity.
Qed.

Lemma load_profiles_json (path : string) (data : pyval) (s : state) :
  fs s !! path = Some (Json data) ->
  load_profiles path s =
  (if has_len data then Ret data
   else Raise (mk_exn TypeError
                 ("object of type '" +:+ py_type_name data +:+ "' has no len()")),
   opened path s).
Proof.
  intros H. unfold load_profiles, open_read. unfold_monad. cbn.
  rewrite H. destruct data; reflexivity.
Qed.

Lemma save_results_ret (w : World) (results : list Outcome) (path : string)
    (s : state) :
  fst (save_results w results path s) = Ret tt.
Proof.
  unfold save_results, write_file. unfold_monad. cbn.
  destruct (open_write w path); reflexivity.
Qed.

Lemma main_sized (cfg : Config) (w : World) (sched : Sched) (s : state)
    (data : pyval) :
  fs s !! INPUT_FILE cfg = Some (Json data) ->
  has_len data = true ->
  py_truthy data = true ->
  main cfg w sched s =
  match run_pool cfg w sched data (opened (INPUT_FILE cfg) s) with
  | (Ret results, s1) =>
      (Ret tt, snd (save_results w results (OUTPUT_FILE cfg) s1))
  | (Raise e, s1) => (Raise e, s1)
  | (SysExit c, s1) => (SysExit c, s1)
  end.
Proof.
  intros Hf Hl Ht. unfold main. unfold bind at 1.
  rewrite (load_profiles_json _ _ _ Hf), Hl, Ht. cbn [negb].
  unfold bind.
  assert (Hlen : forall st, exists n, @py_len state data st = (Ret n, st)).
  { intros st. destruct data; try discriminate Hl; eexists; reflexivity. }
  destruct (Hlen (opened (INPUT_FILE cfg) s)) as [n ->].
  destruct (run_pool cfg w sched _ _) as [[results|e|c] s1]; try reflexivity.
  pose proof (save_results_ret w results (OUTPUT_FILE cfg) s1) as Hs.
  destruct (save_results w results (OUTPUT_FILE cfg) s1) as [r s2].
  cbn in Hs. subst r. reflexivity.
Qed.

Lemma main_list (cfg : Config) (w : World) (sched : Sched) (s : state)
    (items : list pyval) :
  fs s !! INPUT_FILE cfg = Some (Json (PList items)) ->
  items <> [] ->
  main cfg w sched s =
  match run_pool cfg w sched (PList items) (opened (INPUT_FILE cfg) s) with
  | (Ret results, s1) =>
      (Ret tt, snd (save_results w results (OUTPUT_FILE cfg) s1))
  | (Raise e, s1) => (Raise e, s1)
  | (SysExit c, s1) => (SysExit c, s1)
  end.
Proof.
  intros Hf Hne. apply main_sized; [exact Hf|reflexivity|].
  destruct items; [contradiction|reflexivity].
Qed.






(** C9: a record that is not a JSON object makes [process_profile] raise an
    [AttributeError] at once, with no call made and no outcome built. A
    list that holds such a record makes [main] end with an exception that
    comes out of the collection loop, with exit status 1 and nothing
    saved; that exception is the [AttributeError] of such a record
    whenever the objects of the list have ids that can be printed and the
    error texts of the stages can be printed. *)
Theorem non_object_record_aborts_batch (cfg : Config) (w : World)
    (sched : Sched) (s : state) (items : list pyval) (p : pyval) :
  0 < MAX_WORKERS cfg ->
  fs s !! INPUT_FILE cfg = Some (Json (PList items)) ->
  p ∈ items ->
  is_dict p = false ->
  (forall s1, process_profile cfg w p s1 = (Raise (no_get_error p), s1)) /\
  (exists e s',
     main cfg w sched s = (Raise e, s') /\
     exit_status (fst (main cfg w sched s)) = 1 /\
     fs s' = fs s /\
     ((exists q, q ∈ items /\ is_dict q = false /\ e = no_get_error q)
      \/ exn_cls e = UnicodeEncodeError)) /\
  (Forall (fun q => is_dict q = true -> printable_record q = true) items ->
   printable_errors cfg w ->
   exists q s',
     q ∈ items /\ is_dict q = false /\
     main cfg w sched s = (Raise (no_get_error q), s') /\
     exit_status (fst (main cfg w sched s)) = 1 /\
     fs s' = fs s).
Proof.
  intros Hpos Hf Hin Hp. split.
  { intros s1. apply process_profile_non_dict. exact Hp. }
  assert (Hne : items <> []).
  { intros ->. inversion Hin. }
  destruct (run_pool_non_object cfg w sched items
              (opened (INPUT_FILE cfg) s) p Hpos Hin Hp)
    as (e & Hrun & Hcases & Hexact).
  rewrite (main_list cfg w sched s items Hf Hne), Hrun.
  split.
  - exists e, (after_pool cfg w sched (opened (INPUT_FILE cfg) s) items).
    repeat split. exact Hcases.
  - intros Hrec Hw. destruct (Hexact Hrec Hw) as (q & Hq & Hqd & ->).
    exists q, (after_pool cfg w sched (opened (INPUT_FILE cfg) s) items).
    repeat split; assumption.
Qed.

Lemma non_object_record_aborts_batch_witness :
  process_profile cfg0 w_ok (PStr "p3") s0
    = (Raise (no_get_error (PStr "p3")), s0) /\
  exists q s',
    main cfg0 w_ok sched0
      (initial_state 0 (files_of (PList [PDict rec1; PStr "p3"])))
    = (Raise (no_get_error q), s') /\
    fs s' = files_of (PList [PDict rec1; PStr "p3"]).
Proof.
  destruct (non_object_record_aborts_batch cfg0 w_ok sched0
              (initial_state 0 (files_of (PList [PDict rec1; PStr "p3"])))
              [PDict rec1; PStr "p3"] (PStr "p3"))
    as (H1 & _ & H3).
  - reflexivity.
  - reflexivity.
  - apply list_elem_of_In. right. left. reflexivity.
  - reflexivity.
  - split; [apply H1|].
    destruct H3 as (q & s' & _ & _ & Hm & _ & Hfs).
    + constructor; [intros _; reflexivity|].
      constructor; [intros H; discriminate H|]. constructor.
    + apply w_ok_printable.
    + exists q, s'. split; assumption.
Defined.




(** * Further properties of the script *)

(** ** The stages *)

(** X1: [send_to_api] makes exactly one POST, to the configured endpoint,
    with the body made of the id, the hash and an empty list of matches;
    the secret header is sent exactly when a secret is configured. It
    leaves the file system alone, whatever the endpoint answers. *)
Theorem send_to_api_single_post (cfg : Config) (w : World)
    (profile_id : pyval) (phash : string) (s : state) :
  exists headers,
    trace (snd (send_to_api cfg w profile_id phash s))
    = trace s ++ [EvPost (API_ENDPOINT cfg)
                    (PDict [ ("id", profile_id); ("p_hash", PStr phash);
                             ("matches", PList []) ])
                    headers] /\
    fs (snd (send_to_api cfg w profile_id phash s)) = fs s /\
    (WORKER_SECRET cfg = "" ->
     headers = [ ("Content-Type", "application/json") ]) /\
    (WORKER_SECRET cfg <> "" ->
     headers = [ ("Content-Type", "application/json");
                 ("X-WORKER-SECRET", WORKER_SECRET cfg) ]).
Proof.
  rewrite send_to_api_eq. cbn. exists (api_headers cfg).
  split; [reflexivity|]. split; [reflexivity|].
  unfold api_headers.
  destruct (String.eqb_spec (WORKER_SECRET cfg) "") as [He|He]; cbn.
  - split; intros H; [reflexivity|contradiction].
  - split; intros H; [contradiction|reflexivity].
Qed.

Lemma send_to_api_single_post_witness :
  trace (snd (send_to_api cfg_secret w_500 (PStr "p1") "c3d4e5f6a7b8c9d0" s0))
  = [EvPost "https://api.example/checkImage"
       (PDict [ ("id", PStr "p1"); ("p_hash", PStr "c3d4e5f6a7b8c9d0");
                ("matches", PList []) ])
       [ ("Content-Type", "application/json");
         ("X-WORKER-SECRET", "s3cret") ]].
Proof.
  destruct (send_to_api_single_post cfg_secret w_500 (PStr "p1")
              "c3d4e5f6a7b8c9d0" s0) as (headers & Ht & _ & _ & Hs).
  rewrite Ht. rewrite Hs by discriminate. reflexivity.
Defined.

(** X2: [download_image] returns an image exactly when the server answers
    with a status outside 400..599 and the body decodes; it makes one GET
    and leaves the file system alone. *)
Theorem download_image_success_iff (w : World) (url : pyval) (s : state)
    (img : image) :
  (fst (download_image w url s) = Ret img <->
   exists resp,
     snd (requests_get w (clock s) url) = inr resp /\
     ~ (400 <= status_code resp < 600) /\
     Image_open w (body resp) = inr img) /\
  trace (snd (download_image w url s)) = trace s ++ [EvGet url] /\
  fs (snd (download_image w url s)) = fs s.
Proof.
  rewrite download_image_eq. cbn. split; [|split; reflexivity].
  unfold fetch_reply.
  destruct (snd (requests_get w (clock s) url)) as [f|resp].
  { split; [discriminate|]. intros (resp & [=] & _). }
  destruct ((400 <=? status_code resp) && (status_code resp <? 500)) eqn:H4.
  { split; [discriminate|]. intros (r & [= <-] & Hn & _). lia. }
  destruct ((500 <=? status_code resp) && (status_code resp <? 600)) eqn:H5.
  { split; [discriminate|]. intros (r & [= <-] & Hn & _). lia. }
  destruct (Image_open w (body resp)) as [e|i] eqn:Hi.
  - split; [discriminate|]. intros (r & [= <-] & _ & Ho). congruence.
  - split.
    + intros [= ->]. exists resp. split; [reflexivity|]. split; [lia|exact Hi].
    + intros (r & [= <-] & _ & Ho). congruence.
Qed.

(** X18: the result of [send_to_api] has one of two shapes: success with a
    status code that is not a 4xx or 5xx one, a response body and no error,
    or failure with an error text and neither status code nor body. *)
Theorem send_to_api_result_shape (cfg : Config) (w : World)
    (profile_id : pyval) (phash : string) (s s' : state)
    (r : ApiCallResult) :
  send_to_api cfg w profile_id phash s = (Ret r, s') ->
  (ar_success r = true /\
   (exists code, ar_status_code r = Some code /\ ~ (400 <= code < 600)) /\
   is_Some (ar_response r) /\ ar_error r = None)
  \/
  (ar_success r = false /\ ar_status_code r = None /\
   ar_response r = None /\ is_Some (ar_error r)).
Proof.
  rewrite send_to_api_eq. cbn zeta. intros [= H _]. revert H.
  unfold api_reply, api_caught, api_failure.
  destruct (snd (requests_post w _ _ _ _)) as [e|resp].
  { destruct (is_RequestException e); [|discriminate].
    intros [= <-]. right. cbn. eauto. }
  destruct ((400 <=? status_code resp) && (status_code resp <? 500)) eqn:H4;
    [intros [= <-]; right; cbn; eauto|].
  destruct ((500 <=? status_code resp) && (status_code resp <? 600)) eqn:H5;
    [intros [= <-]; right; cbn; eauto|].
  assert (Hc : ~ (400 <= status_code resp < 600)) by lia.
  destruct (String.eqb (body resp) "").
  { intros [= <-]. left. cbn. repeat split; eauto. }
  destruct (json_result resp) as [e|v].
  - destruct (is_RequestException e); [|discriminate].
    intros [= <-]. right. cbn. eauto.
  - intros [= <-]. left. cbn. repeat split; eauto.
Qed.

Lemma send_to_api_result_shape_witness :
  exists r,
    fst (send_to_api cfg0 w_304 (PStr "p1") "c3d4e5f6a7b8c9d0" s0) = Ret r /\
    ar_success r = true /\ ar_status_code r = Some 304.
Proof.
  eexists. split; [reflexivity|].
  destruct (send_to_api_result_shape cfg0 w_304 (PStr "p1")
              "c3d4e5f6a7b8c9d0" s0
              (snd (send_to_api cfg0 w_304 (PStr "p1") "c3d4e5f6a7b8c9d0" s0))
              (mk_ApiCallResult true (Some 304) (Some (PDict [])) None))
    as [(Hs & _)|(Hs & _)]; [reflexivity| |discriminate Hs].
  split; [exact Hs|reflexivity].
Defined.

(** ** The pipeline of one record *)

(** X3: when download, hashing and report all succeed on a record whose id
    can be printed, the outcome has status success, carries the hash and
    the response of the endpoint with its status code and parsed body, has
    no error, and echoes the id. *)
Theorem success_outcome (cfg : Config) (w : World)
    (kvs : list (string * pyval)) (s s1 s2 : state) (img : image)
    (h : list hexdigit) (r : ApiCallResult) :
  printable_val (dict_get kvs "id") = true ->
  download_image w (dict_get kvs "profile_image_url") s = (Ret img, s1) ->
  imagehash_phash w img = inr h ->
  send_to_api cfg w (dict_get kvs "id") (hex_string h) s1 = (Ret r, s2) ->
  ar_success r = true ->
  exists o,
    process_profile cfg w (PDict kvs) s = (Ret o, s2) /\
    o_id o = dict_get kvs "id" /\
    status o = "success" /\
    p_hash o = Some (hex_string h) /\
    error o = None /\
    api_response o = Some r /\
    is_Some (ar_status_code r) /\ is_Some (ar_response r) /\
    ar_error r = None.
Proof.
  intros Hid Hd Hh Hs Hok. rewrite process_profile_dict. cbn zeta.
  rewrite Hid, Hd. cbn [negb]. rewrite Hh, Hs, Hok.
  eexists. split; [reflexivity|]. cbn.
  do 5 (split; [reflexivity|]).
  rewrite send_to_api_eq in Hs. cbn zeta in Hs. injection Hs as Hs _.
  revert Hs Hok. unfold api_reply, api_caught, api_failure.
  repeat match goal with
         | |- context [match ?b with _ => _ end] => destruct b; cbn
         end; intros [= <-]; cbn; intros; try discriminate; eauto.
Qed.

Lemma success_outcome_witness :
  exists o s2,
    process_profile cfg0 w_ok (PDict rec1) s0 = (Ret o, s2) /\
    status o = "success" /\
    p_hash o = Some "c3d4e5f6a7b8c9d0" /\
    error o = None.
Proof.
  pose (s1 := mk_state 2 ∅ [EvGet (PStr "https://img.example/a.png")]).
  destruct (success_outcome cfg0 w_ok rec1 s0 s1
              (snd (send_to_api cfg0 w_ok (PStr "p1") "c3d4e5f6a7b8c9d0" s1))
              (Image "PNG-bytes") sample_hash
              (mk_ApiCallResult true (Some 200) (Some (PList [])) None))
    as (o & Hp & _ & Hs & Hh & He & _); try reflexivity.
  exists o, (snd (send_to_api cfg0 w_ok (PStr "p1") "c3d4e5f6a7b8c9d0" s1)).
  repeat split; assumption.
Defined.

(** X4: when the download succeeds and the hash library raises, on a
    record whose id can be printed and with an error text that can be
    printed, the outcome has status failed, no hash, the message of that
    error and no [api_response]; the job stops there, without a POST. *)
Theorem hash_failure_outcome (cfg : Config) (w : World)
    (kvs : list (string * pyval)) (s s1 : state) (img : image) (e : exn) :
  printable_val (dict_get kvs "id") = true ->
  printable_text (str_exn e) = true ->
  download_image w (dict_get kvs "profile_image_url") s = (Ret img, s1) ->
  imagehash_phash w img = inl e ->
  exists o,
    process_profile cfg w (PDict kvs) s = (Ret o, s1) /\
    status o = "failed" /\
    p_hash o = None /\
    error o = Some (str_exn e) /\
    api_response o = None /\
    trace s1 = trace s ++ [EvGet (dict_get kvs "profile_image_url")].
Proof.
  intros Hid He Hd Hh. rewrite process_profile_dict. cbn zeta.
  rewrite Hid, Hd. cbn [negb]. rewrite Hh.
  rewrite on_failure_printable by assumption.
  eexists. split; [reflexivity|]. cbn.
  rewrite download_image_eq in Hd. injection Hd as _ <-.
  repeat split.
Qed.

Lemma hash_failure_outcome_witness :
  exists o s1,
    process_profile cfg0 w_badhash (PDict rec1) s0 = (Ret o, s1) /\
    status o = "failed" /\
    error o = Some "image file is truncated" /\
    trace s1 = [EvGet (PStr "https://img.example/a.png")].
Proof.
  destruct (hash_failure_outcome cfg0 w_badhash rec1 s0
              (mk_state 2 ∅ [EvGet (PStr "https://img.example/a.png")])
              (Image "PNG-bytes") (mk_exn OSError "image file is truncated"))
    as (o & Hp & Hs & _ & He & _ & Ht); try reflexivity.
  exists o, (mk_state 2 ∅ [EvGet (PStr "https://img.example/a.png")]).
  repeat split; assumption.
Defined.

(** The calls of a job that returned an outcome: one GET, and one POST
    exactly when the outcome carries a hash. *)
Lemma process_profile_dict_calls (cfg : Config) (w : World)
    (kvs : list (string * pyval)) (s s' : state) (o : Outcome) :
  process_profile cfg w (PDict kvs) s = (Ret o, s') ->
  fs s' = fs s /\
  ((p_hash o = None /\ api_response o = None /\
    trace s' = trace s ++ [EvGet (dict_get kvs "profile_image_url")])
   \/
   (exists h,
      p_hash o = Some h /\
      trace s' = trace s ++
        [EvGet (dict_get kvs "profile_image_url");
         EvPost (API_ENDPOINT cfg) (api_payload (dict_get kvs "id") h)
           (api_headers cfg)])).
Proof.
  rewrite process_profile_dict, download_image_eq. cbn zeta.
  destruct (negb (printable_val (dict_get kvs "id"))); [discriminate|].
  destruct (fetch_reply w _) as [img|e|c]; [| |discriminate].
  2:{ intros H. apply on_failure_ret in H as (-> & -> & _).
      split; [reflexivity|]. left. repeat split. }
  destruct (imagehash_phash w img) as [e|h].
  { intros H. apply on_failure_ret in H as (-> & -> & _).
    split; [reflexivity|]. left. repeat split. }
  rewrite send_to_api_eq. cbn zeta.
  destruct (api_reply _) as [r|e|c]; [| |discriminate].
  2:{ intros H. apply on_failure_ret in H as (-> & -> & _).
      split; [reflexivity|]. right. exists (hex_string h). cbn.
      rewrite <- app_assoc. split; reflexivity. }
  destruct (ar_success r).
  { intros [= <- <-]. split; [reflexivity|]. right. exists (hex_string h).
    cbn. rewrite <- app_assoc. split; reflexivity. }
  destruct (printable_fragment (Opt (ar_error r))).
  { intros [= <- <-]. split; [reflexivity|]. right. exists (hex_string h).
    cbn. rewrite <- app_assoc. split; reflexivity. }
  intros H. apply on_failure_ret in H as (-> & -> & _).
  split; [reflexivity|]. right. exists (hex_string h). cbn.
  rewrite <- app_assoc. split; reflexivity.
Qed.

Lemma process_profile_api_response (cfg : Config) (w : World) (p : pyval)
    (s s' : state) (o : Outcome) :
  process_profile cfg w p s = (Ret o, s') ->
  is_Some (api_response o) -> is_Some (p_hash o).
Proof.
  intros H. apply process_profile_shape in H. cbn zeta in H.
  destruct H as [(msg & ->)|[(h & msg & ->)|[(h & r & _ & ->)|
                 (h & r & msg & _ & ->)]]]; cbn; intros Ha; eauto.
  destruct Ha as [x Hx]. discriminate Hx.
Qed.

(** X5: a job that returns an outcome has made one GET and at most one
    POST and has left the file system alone. The POST was made exactly
    when the outcome carries a hash, and it carried the id of the record
    and that very hash; an outcome that carries an [api_response] carries
    a hash. *)
Theorem job_calls (cfg : Config) (w : World) (kvs : list (string * pyval))
    (s s' : state) (o : Outcome) :
  process_profile cfg w (PDict kvs) s = (Ret o, s') ->
  fs s' = fs s /\
  ((p_hash o = None /\ api_response o = None /\
    trace s' = trace s ++ [EvGet (dict_get kvs "profile_image_url")])
   \/
   (exists h,
      p_hash o = Some h /\
      trace s' = trace s ++
        [EvGet (dict_get kvs "profile_image_url");
         EvPost (API_ENDPOINT cfg) (api_payload (dict_get kvs "id") h)
           (api_headers cfg)])) /\
  (is_Some (api_response o) -> is_Some (p_hash o)).
Proof.
  intros H.
  destruct (process_profile_dict_calls cfg w kvs s s' o H) as [Hfs Hc].
  split; [exact Hfs|]. split; [exact Hc|].
  exact (process_profile_api_response cfg w _ s s' o H).
Qed.

Lemma job_calls_witness :
  exists o s',
    process_profile cfg0 w_404 (PDict rec1) s0 = (Ret o, s') /\
    fs s' = ∅ /\ p_hash o = None /\ api_response o = None.
Proof.
  destruct (job_calls cfg0 w_404 rec1 s0
              (snd (process_profile cfg0 w_404 (PDict rec1) s0))
              (mk_Outcome (PStr "p1") None "failed"
                 (Some "404 Client Error: Not Found for url: https://img.example/a.png")
                 None "0"))
    as (Hfs & _); [reflexivity|].
  eexists _, _. split; [reflexivity|]. split; [exact Hfs|]. split; reflexivity.
Defined.

(** A job whose report raises an exception that [send_to_api] does not
    catch has made its POST and returns an outcome with the hash and no
    [api_response]. *)
Example job_with_hash_and_no_api_response :
  exists o s',
    process_profile cfg_secret w_header (PDict rec1) s0 = (Ret o, s') /\
    p_hash o = Some "c3d4e5f6a7b8c9d0" /\ api_response o = None /\
    count_events is_post (trace s') = 1%nat.
Proof. eexists _, _. repeat split. Qed.




(** X19: a record object whose id cannot be printed yields no outcome: the
    first message of the job cannot be written, the handler's message
    cannot be written either, and [process_profile] raises that second
    [UnicodeEncodeError] without having made any call. *)
Theorem unprintable_id_raises (cfg : Config) (w : World)
    (kvs : list (string * pyval)) (s : state) :
  printable_val (dict_get kvs "id") = false ->
  exists e,
    process_profile cfg w (PDict kvs) s = (Raise e, s) /\
    exn_cls e = UnicodeEncodeError.
Proof.
  intros Hid. rewrite process_profile_dict. cbn zeta. rewrite Hid.
  eexists. split; reflexivity.
Qed.

Lemma unprintable_id_raises_witness :
  exists e,
    process_profile cfg0 w_ok (PDict rec_bad_id) s0 = (Raise e, s0) /\
    exn_cls e = UnicodeEncodeError.
Proof.
  apply (unprintable_id_raises cfg0 w_ok rec_bad_id s0). reflexivity.
Defined.

(** ** Loading and saving *)

Lemma save_results_ok (w : World) (results : list Outcome) (path : string)
    (s : state) :
  open_write w path = None ->
  save_results w results path s =
  (Ret tt,
   mk_state (clock s)
     (<[path := Json (PList (map outcome_to_json results))]> (fs s))
     (trace s ++ [EvOpenWrite path])).
Proof.
  intros H. unfold save_results, write_file. unfold_monad. cbn.
  rewrite H. reflexivity.
Qed.

Lemma save_results_failed (w : World) (results : list Outcome)
    (path : string) (s : state) (e : exn) :
  open_write w path = Some e ->
  save_results w results path s =
  (Ret tt, mk_state (clock s) (fs s) (trace s ++ [EvOpenWrite path])).
Proof.
  intros H. unfold save_results, write_file. unfold_monad. cbn.
  rewrite H. reflexivity.
Qed.

(** X8: what [save_results] writes, [load_profiles] reads back: a list with
    one object per outcome, in the same order, each carrying the id, the
    status and the hash of its outcome. No other file is changed. *)
Theorem save_then_load (w : World) (results : list Outcome) (path : string)
    (s : state) :
  open_write w path = None ->
  exists entries,
    fst (load_profiles path (snd (save_results w results path s)))
    = Ret (PList entries) /\
    Forall2 (fun o v => exists kvs,
               v = PDict kvs /\
               dict_get kvs "id" = o_id o /\
               dict_get kvs "status" = PStr (status o) /\
               dict_get kvs "p_hash" = opt_str (p_hash o) /\
               dict_get kvs "error" = opt_str (error o) /\
               dict_get kvs "timestamp" = PStr (timestamp o))
            results entries /\
    (forall other, other <> path ->
       fs (snd (save_results w results path s)) !! other = fs s !! other).
Proof.
  intros Hw. rewrite (save_results_ok w results path s Hw). cbn [snd].
  exists (map outcome_to_json results). split; [|split].
  - rewrite (load_profiles_json path (PList (map outcome_to_json results))).
    + reflexivity.
    + cbn. apply lookup_insert_eq.
  - apply Forall2_fmap_r. apply Forall_Forall2_diag.
    apply Forall_forall. intros o _. eexists. split; [reflexivity|].
    repeat split.
  - intros other Hne. cbn. apply lookup_insert_ne. congruence.
Qed.

Lemma save_then_load_witness :
  exists entries,
    fst (load_profiles "results.json"
           (snd (save_results w_ok
                   [mk_Outcome (PStr "p1") None "failed" (Some "boom") None "0"]
                   "results.json" s0)))
    = Ret (PList entries) /\
    length entries = 1%nat.
Proof.
  destruct (save_then_load w_ok
              [mk_Outcome (PStr "p1") None "failed" (Some "boom") None "0"]
              "results.json" s0) as (entries & Hl & Hf & _).
  - reflexivity.
  - exists entries. split; [exact Hl|].
    symmetry. exact (Forall2_length _ _ _ Hf).
Defined.

(** X9: when the output file cannot be opened for writing, [save_results]
    swallows the error: it returns normally and no file is changed, so the
    results of the run are lost. *)
Theorem save_failure_is_silent (w : World) (results : list Outcome)
    (path : string) (s : state) (e : exn) :
  open_write w path = Some e ->
  fst (save_results w results path s) = Ret tt /\
  fs (snd (save_results w results path s)) = fs s /\
  trace (snd (save_results w results path s)) = trace s ++ [EvOpenWrite path].
Proof.
  intros H. rewrite (save_results_failed w results path s e H).
  repeat split.
Qed.

Lemma save_failure_is_silent_witness :
  fst (save_results w_readonly [] "results.json" s0) = Ret tt /\
  fs (snd (save_results w_readonly [] "results.json" s0)) = ∅.
Proof.
  destruct (save_failure_is_silent w_readonly [] "results.json" s0
              (mk_exn OSError "[Errno 13] Permission denied"))
    as (Hr & Hf & _); [reflexivity|].
  split; assumption.
Defined.

(** X17: [load_profiles] ends the process with status 1 exactly when the
    file is missing, is not JSON, or cannot be opened or read with an
    error of one of the two classes that it catches; it hands back the
    loaded value exactly when the file is JSON with a length (list, object
    or string); every other error of opening or reading the file comes out
    of it as raised. It never changes a file, and its one call is the
    opening of the file. *)
Theorem load_profiles_outcomes (path : string) (s : state) :
  (fst (load_profiles path s) = SysExit 1 <->
   fs s !! path = None
   \/ (exists raw msg, fs s !! path = Some (NotJson raw msg))
   \/ (exists e, fs s !! path = Some (Broken e) /\
                 is_FileNotFoundError e || is_JSONDecodeError e = true)) /\
  (forall data, fst (load_profiles path s) = Ret data <->
   fs s !! path = Some (Json data) /\ has_len data = true) /\
  (forall e, fs s !! path = Some (Broken e) ->
   is_FileNotFoundError e || is_JSONDecodeError e = false ->
   fst (load_profiles path s) = Raise e) /\
  snd (load_profiles path s)
  = mk_state (clock s) (fs s) (trace s ++ [EvOpenRead path]).
Proof.
  destruct (fs s !! path) as [[data|raw msg|e]|] eqn:Hf.
  - rewrite (load_profiles_json path data s Hf). cbn [fst snd].
    split; [|split; [|split; [discriminate|reflexivity]]].
    + split.
      * destruct (has_len data); discriminate.
      * intros [H|[(raw & msg & H)|(e & H & _)]]; discriminate.
    + intros d. split.
      * destruct (has_len data) eqn:Hl; [|discriminate].
        intros [= ->]. split; [reflexivity|exact Hl].
      * intros [[= ->] Hl]. rewrite Hl. reflexivity.
  - rewrite (load_profiles_not_json path raw msg s Hf). cbn [fst snd].
    split; [|split; [|split; [discriminate|reflexivity]]].
    + split; [eauto|reflexivity].
    + intros d. split; [discriminate|intros [[=] _]].
  - rewrite (load_profiles_broken path e s Hf). cbn [fst snd].
    split; [|split; [|split; [|reflexivity]]].
    + split.
      * destruct (_ || _) eqn:Hc; [|discriminate].
        intros _. right. right. exists e. split; [reflexivity|exact Hc].
      * intros [H|[(raw & msg & H)|(e' & [= <-] & ->)]];
          [discriminate H|discriminate H|reflexivity].
    + intros d. split.
      * destruct (_ || _); discriminate.
      * intros [[=] _].
    + intros e' [= <-] ->. reflexivity.
  - rewrite (load_profiles_missing path s Hf). cbn [fst snd].
    split; [|split; [|split; [discriminate|reflexivity]]].
    + split; [eauto|reflexivity].
    + intros d. split; [discriminate|intros [[=] _]].
Qed.

(** ** The whole run, continued *)

Lemma run_pool_sized (cfg : Config) (w : World) (sched : Sched)
    (data : pyval) (s : state) :
  has_len data = true ->
  run_pool cfg w sched data s
  = run_pool cfg w sched (PList (items_of data)) s.
Proof.
  intros H. destruct data; try discriminate H; reflexivity.
Qed.

Lemma run_pool_no_workers (cfg : Config) (w : World) (sched : Sched)
    (data : pyval) (s : state) :
  MAX_WORKERS cfg <= 0 ->
  run_pool cfg w sched data s
  = (Raise (mk_exn ValueError "max_workers must be greater than 0"), s).
Proof.
  intros H. unfold run_pool, ThreadPoolExecutor.
  replace (MAX_WORKERS cfg <=? 0) with true by lia.
  reflexivity.
Qed.

Lemma run_pool_fs (cfg : Config) (w : World) (sched : Sched)
    (data : pyval) (s : state) :
  has_len data = true ->
  fs (snd (run_pool cfg w sched data s)) = fs s.
Proof.
  intros H. destruct (Z_le_gt_dec (MAX_WORKERS cfg) 0) as [Hle|Hgt].
  - rewrite run_pool_no_workers by exact Hle. reflexivity.
  - rewrite run_pool_sized by exact H.
    rewrite run_pool_eq by lia. reflexivity.
Qed.

(** The file system after [main]: as before, or as before with the output
    file replaced by the saved results of a run that ended normally. *)
Lemma main_fs (cfg : Config) (w : World) (sched : Sched) (s : state) :
  fs (snd (main cfg w sched s)) = fs s
  \/ (fst (main cfg w sched s) = Ret tt /\
      exists results,
        fs (snd (main cfg w sched s))
        = <[OUTPUT_FILE cfg := Json (PList (map outcome_to_json results))]>
            (fs s)).
Proof.
  destruct (fs s !! INPUT_FILE cfg) as [[data|raw msg|e]|] eqn:Hf.
  - destruct (has_len data) eqn:Hl.
    2:{ left. unfold main. unfold bind at 1.
        rewrite (load_profiles_json _ _ _ Hf), Hl. reflexivity. }
    destruct (py_truthy data) eqn:Ht.
    2:{ left. unfold main. unfold bind at 1.
        rewrite (load_profiles_json _ _ _ Hf), Hl, Ht. reflexivity. }
    rewrite (main_sized cfg w sched s data Hf Hl Ht).
    pose proof (run_pool_fs cfg w sched data (opened (INPUT_FILE cfg) s) Hl)
      as Hfs.
    destruct (run_pool cfg w sched data _) as [[results|e|c] s1];
      cbn in Hfs; [|left; exact Hfs|left; exact Hfs].
    destruct (open_write w (OUTPUT_FILE cfg)) as [e|] eqn:Hw.
    + left. rewrite (save_results_failed _ _ _ _ e Hw). exact Hfs.
    + right. split; [reflexivity|]. exists results.
      rewrite (save_results_ok _ _ _ _ Hw). cbn. rewrite Hfs. reflexivity.
  - left. unfold main. unfold bind at 1.
    rewrite (load_profiles_not_json _ _ _ _ Hf). reflexivity.
  - left. unfold main. unfold bind at 1.
    rewrite (load_profiles_broken _ _ _ Hf).
    destruct (_ || _); reflexivity.
  - left. unfold main. unfold bind at 1.
    rewrite (load_profiles_missing _ _ Hf). reflexivity.
Qed.

(** X10: whatever the input file holds and whatever the world does, [main]
    changes no file other than the output file, and it changes no file at
    all unless it ends normally. *)
Theorem main_writes_only_output (cfg : Config) (w : World) (sched : Sched)
    (s : state) :
  (forall path, path <> OUTPUT_FILE cfg ->
     fs (snd (main cfg w sched s)) !! path = fs s !! path) /\
  (fst (main cfg w sched s) <> Ret tt ->
     fs (snd (main cfg w sched s)) = fs s).
Proof.
  destruct (main_fs cfg w sched s) as [H|(Hr & results & H)].
  - split; [intros path _; rewrite H; reflexivity|intros _; exact H].
  - split.
    + intros path Hne. rewrite H. apply lookup_insert_ne. congruence.
    + intros Hn. contradiction.
Qed.

Lemma main_writes_only_output_witness :
  fs (snd (main cfg0 w_ok sched0
             (initial_state 0 (files_of (PList [PDict rec1])))))
    !! "profiles.json"
  = Some (Json (PList [PDict rec1])).
Proof.
  destruct (main_writes_only_output cfg0 w_ok sched0
              (initial_state 0 (files_of (PList [PDict rec1])))) as [H _].
  rewrite (H "profiles.json"); [reflexivity|discriminate].
Defined.









(** ** The summary *)

(** The results of a run that ended normally are the results of its
    futures, taken in the order of their finish instants. *)
Lemma run_pool_ret (cfg : Config) (w : World) (sched : Sched)
    (items : list pyval) (s : state) (results : list Outcome) :
  0 < MAX_WORKERS cfg ->
  fst (run_pool cfg w sched (PList items) s) = Ret results ->
  exists futs,
    futs ≡ₚ futures_of cfg w sched s items /\
    Sorted (fun a b => (fut_done a <= fut_done b)%N) futs /\
    Forall2 (fun f o => fut_result f = Ret o) futs results.
Proof.
  intros Hpos. rewrite run_pool_eq by exact Hpos. cbn zeta. cbn [fst].
  intros H.
  destruct (collect (as_completed (futures_of cfg w sched s items)
                       (completion sched)) [] s) as [r s'] eqn:Hc.
  cbn in H. subst r.
  apply collect_ret in Hc as (vals & -> & Hall).
  eexists. split; [apply as_completed_perm|].
  split; [apply as_completed_sorted|exact Hall].
Qed.

Lemma count_three_statuses (results : list Outcome) :
  Forall (fun o => status o = "success" \/ status o = "failed"
                   \/ status o = "api_failed") results ->
  Z.of_nat (length results)
  = count_status "success" results + count_status "failed" results
    + count_status "api_failed" results.
Proof.
  unfold count_status.
  induction 1 as [|o results Ho _ IH]; [reflexivity|].
  rewrite !filter_cons.
  destruct Ho as [Ho|[Ho|Ho]]; rewrite Ho;
    repeat case_decide; try congruence; cbn [length]; lia.
Qed.

Lemma job_at_status (cfg : Config) (w : World) (files : gmap string file)
    (start : N) (p : pyval) (o : Outcome) :
  job_at cfg w files start p = Ret o ->
  status o = "success" \/ status o = "failed" \/ status o = "api_failed".
Proof.
  unfold job_at. intros H.
  destruct (process_profile cfg w p _) as [r s'] eqn:Hp. cbn in H. subst r.
  apply process_profile_shape in Hp. cbn zeta in Hp.
  destruct Hp as [(msg & ->)|[(h & msg & ->)|[(h & r & _ & ->)|
                  (h & r & msg & _ & ->)]]]; cbn; auto.
Qed.

(** X14: the two counts that [main] prints add up to the number of
    records, and the count of failures is the number of outcomes with
    status failed plus the number with status api_failed. *)
Theorem summary_counts (cfg : Config) (w : World) (sched : Sched)
    (s : state) (items : list pyval) (results : list Outcome) :
  0 < MAX_WORKERS cfg ->
  Forall (fun p => is_dict p = true) items ->
  fst (run_pool cfg w sched (PList items) s) = Ret results ->
  successful results + failed results = Z.of_nat (length items) /\
  failed results
  = count_status "failed" results + count_status "api_failed" results /\
  0 <= successful results /\ 0 <= failed results.
Proof.
  intros Hpos Hd Hr.
  destruct (run_pool_ret cfg w sched items s results Hpos Hr)
    as (futs & Hperm & _ & Hall).
  assert (Hlen : length results = length items).
  { rewrite <- (Forall2_length _ _ _ Hall), Hperm.
    apply futures_of_length. }
  assert (Hst : Forall (fun o => status o = "success" \/ status o = "failed"
                                 \/ status o = "api_failed") results).
  { assert (Hin : forall f, f ∈ futs -> f ∈ futures_of cfg w sched s items).
    { intros f Hf. rewrite <- Hperm. exact Hf. }
    clear Hperm Hlen Hr.
    induction Hall as [|f o futs results Hfo _ IH]; constructor.
    - destruct (futures_of_elem cfg w sched s items f) as (p & start & _ & Hf).
      { apply Hin. left. }
      rewrite Hf in Hfo.
      destruct (submit_eq cfg w start (fs s) (fut_id f) p) as (_ & Hj & _).
      rewrite Hj in Hfo. eapply job_at_status. exact Hfo.
    - apply IH. intros g Hg. apply Hin. right. exact Hg. }
  pose proof (count_three_statuses results Hst) as Hc.
  unfold failed, successful. fold (count_status "success" results).
  unfold count_status in *. lia.
Qed.

Lemma summary_counts_witness :
  exists results,
    fst (run_pool cfg0 w_500 sched0 (PList [PDict rec1; PDict rec2]) s0)
    = Ret results /\
    successful results + failed results = 2.
Proof.
  eexists. split; [reflexivity|].
  eapply (summary_counts cfg0 w_500 sched0 s0 [PDict rec1; PDict rec2]).
  - reflexivity.
  - repeat constructor.
  - reflexivity.
Defined.

(** ** Order of the results *)



(** ** Network calls of a run *)








